(** * Task API: authentication, authorization and ownership

    A shallow embedding of the back end of the task-management API:
    the two models ([User], [Task]), the token helpers ([jwt]) and the
    request handlers of the auth, task and user controllers, over an
    explicit model of the MySQL store described by the migration
    script.

    Conventions of the embedding.
    - An [async] function that queries the store is a computation in
      the monad [M]: it takes the store, returns the store it leaves
      behind and either a value or the exception it throws.
    - A request handler returns an [Outcome]: the response it sent, or
      the error it handed to [next].
    - A text value coming from a JSON body or held by a text column is
      an [option string]: [None] is [undefined] in a body and SQL [NULL]
      in a column. The driver refuses a statement one of whose bound
      values is [undefined], before anything reaches the store.
    - Numeric ids are integers; a route parameter [:id] is taken in its
      numeric reading.
    - The store enforces the keys of the schema (AUTO_INCREMENT primary
      keys, the two UNIQUE keys of [users], the foreign key of [tasks]
      with ON DELETE CASCADE). Column shapes (lengths, enum members)
      are the business of the validation layer. *)

From Stdlib Require Import ZArith List String Bool Lia PeanoNat.
Import ListNotations.

Local Open Scope string_scope.
Local Open Scope Z_scope.

(** ** JavaScript values and helpers *)

(** [String.prototype.includes]. *)
Definition includes (s sub : string) : bool :=
  match String.index 0 sub s with
  | Some _ => true
  | None => false
  end.

(** Truthiness of a string that may be [undefined]: [if (status)]. *)
Definition truthy (v : option string) : bool :=
  match v with
  | Some s => negb (s =? "")%string
  | None => false
  end.

(** Strict equality of two values that are strings or absent. *)
Definition text_eqb (a b : option string) : bool :=
  match a, b with
  | Some x, Some y => (x =? y)%string
  | None, None => true
  | _, _ => false
  end.

(** [role === 'admin']. *)
Definition is_admin_role (role : option string) : bool :=
  text_eqb role (Some "admin").

(** A destructuring default: [{ limit = 10 } = req.query]. *)
Definition default {A : Type} (d : A) (v : option A) : A :=
  match v with
  | Some a => a
  | None => d
  end.

(** A JavaScript object used as a record of named text fields, its keys
    in insertion order ([Object.keys]). *)
Definition object := list (string * option string).

Definition keys (o : object) : list string := map fst o.

(** Property access [o[key]]; a missing key reads [undefined]. *)
Fixpoint get (o : object) (key : string) : option string :=
  match o with
  | [] => None
  | (k, v) :: rest => if (k =? key)%string then v else get rest key
  end.

(** [Array.prototype.includes] on an array of strings. *)
Definition mem (key : string) (l : list string) : bool :=
  existsb (String.eqb key) l.

(** ** Errors and the computation monad *)

(** A thrown value: an [Error] made by the code itself, or the error the
    database driver raises, which carries a [code]. *)
Inductive Error : Type :=
| JsError (message : string)
| DbError (code : string) (message : string).

Definition message (e : Error) : string :=
  match e with
  | JsError m => m
  | DbError _ m => m
  end.

Inductive Result (A : Type) : Type :=
| Ok (a : A)
| Throw (e : Error).
Arguments Ok {A} a.
Arguments Throw {A} e.

(** ** The store *)

Module users.
(** A row of table [users]. *)
Record row : Type := mk {
  id : Z;
  username : option string;
  email : option string;
  password : option string;
  role : option string
}.
End users.

Module tasks.
(** A row of table [tasks]. *)
Record row : Type := mk {
  id : Z;
  title : option string;
  description : option string;
  status : option string;
  priority : option string;
  due_date : option string;
  user_id : Z;
  created_at : Z
}.
End tasks.

Record Store : Type := mkStore {
  users_table : list users.row;
  users_auto_increment : Z;
  tasks_table : list tasks.row;
  tasks_auto_increment : Z
}.

(** A computation over the store that may throw. *)
Definition M (A : Type) : Type := Store -> Result A * Store.

Definition ret {A : Type} (a : A) : M A := fun s => (Ok a, s).

Definition throw {A : Type} (e : Error) : M A := fun s => (Throw e, s).

Definition bind {A B : Type} (m : M A) (k : A -> M B) : M B :=
  fun s =>
    match m s with
    | (Ok a, s') => k a s'
    | (Throw e, s') => (Throw e, s')
    end.

(** [try { m } catch (error) { h error }]. *)
Definition try_catch {A : Type} (m : M A) (h : Error -> M A) : M A :=
  fun s =>
    match m s with
    | (Ok a, s') => (Ok a, s')
    | (Throw e, s') => h e s'
    end.

Declare Scope js_scope.
Delimit Scope js_scope with js.
Notation "'await' x <- m ;; k" := (bind m (fun x => k))
  (at level 61, x name, m at next level, right associativity) : js_scope.
Notation "'await_' m ;; k" := (bind m (fun _ => k))
  (at level 61, m at next level, right associativity) : js_scope.
Local Open Scope js_scope.

(** The statements the models send through [query], read on the schema
    of the migration script. A SELECT answers with its rows, the other
    statements with the driver's result header. *)
Module Db.

Record OkPacket : Type := mkOk {
  insertId : Z;
  affectedRows : nat
}.

(** Comparison [column = ?] of SQL: NULL equals nothing. *)
Definition sql_eq (column bound : option string) : bool :=
  match column, bound with
  | Some a, Some b => (a =? b)%string
  | _, _ => false
  end.

(** An optional filter [AND column = ?], present when [given]. *)
Definition and_eq (given : bool) (column bound : option string) : bool :=
  if given then sql_eq column bound else true.

Definition max_id {R : Type} (id : R -> Z) (rows : list R) : Z :=
  fold_right (fun r m => Z.max (id r) m) 0 rows.

(** AUTO_INCREMENT: the counter, which the engine keeps above every id
    of the table. *)
Definition fresh_id {R : Type} (id : R -> Z) (counter : Z) (rows : list R) : Z :=
  Z.max counter (max_id id rows + 1).

(** [LIMIT ? OFFSET ?]. *)
Definition limit_offset {R : Type} (limit offset : nat) (rows : list R) : list R :=
  firstn limit (skipn offset rows).

(** [ORDER BY created_at DESC]: a stable insertion sort, newest first. *)
Fixpoint insert_desc {R : Type} (key : R -> Z) (r : R) (sorted : list R) : list R :=
  match sorted with
  | [] => [r]
  | x :: rest =>
      if key x <=? key r then r :: x :: rest
      else x :: insert_desc key r rest
  end.

Definition order_by_desc {R : Type} (key : R -> Z) (rows : list R) : list R :=
  fold_right (insert_desc key) [] rows.

Definition dup_entry (value : option string) (key : string) : Error :=
  DbError "ER_DUP_ENTRY"
    ("Duplicate entry '" ++ default "" value ++ "' for key '" ++ key ++ "'").

Definition bad_field (column : string) : Error :=
  DbError "ER_BAD_FIELD_ERROR"
    ("Unknown column '" ++ column ++ "' in 'field list'").

Definition no_referenced_row : Error :=
  DbError "ER_NO_REFERENCED_ROW_2"
    "Cannot add or update a child row: a foreign key constraint fails".

(** What [pool.execute] throws, before the statement is sent, when one
    of the bound values is [undefined]. *)
Definition bind_undefined : Error :=
  JsError "Bind parameters must not contain undefined. To pass SQL NULL specify JS null".

(** Are the bound values all defined? *)
Definition defined (values : list (option string)) : bool :=
  forallb (fun v => match v with Some _ => true | None => false end) values.

(** *** Table [users] *)

(** [SELECT ... FROM users WHERE id = ?] *)
Definition select_users_by_id (id : Z) : M (list users.row) :=
  fun s => (Ok (filter (fun u => users.id u =? id) (users_table s)), s).

(** [SELECT * FROM users WHERE email = ?] *)
Definition select_users_by_email (email : option string) : M (list users.row) :=
  fun s => (Ok (filter (fun u => sql_eq (users.email u) email) (users_table s)), s).

(** [SELECT ... FROM users WHERE username = ?] *)
Definition select_users_by_username (username : option string) : M (list users.row) :=
  fun s => (Ok (filter (fun u => sql_eq (users.username u) username) (users_table s)), s).

Definition username_taken (username : option string) (s : Store) : bool :=
  existsb (fun u => sql_eq (users.username u) username) (users_table s).

Definition email_taken (email : option string) (s : Store) : bool :=
  existsb (fun u => sql_eq (users.email u) email) (users_table s).

(** [INSERT INTO users (username, email, password, role) VALUES (?, ?, ?, ?)]:
    refused by the UNIQUE key of [username], then by that of [email]. *)
Definition insert_user (username email password role : option string) : M OkPacket :=
  fun s =>
    if username_taken username s then
      (Throw (dup_entry username "users.username"), s)
    else if email_taken email s then
      (Throw (dup_entry email "users.email"), s)
    else
      let id := fresh_id users.id (users_auto_increment s) (users_table s) in
      let u := users.mk id username email password role in
      (Ok (mkOk id 1),
       mkStore (users_table s ++ [u]) (id + 1)
               (tasks_table s) (tasks_auto_increment s)).

(** The text columns of [users] an assignment [column = ?] can write. *)
Definition users_text_columns : list string :=
  ["username"; "email"; "password"; "role"].

Definition assign_user (u : users.row) (a : string * option string) : users.row :=
  let (column, v) := a in
  if (column =? "username")%string then
    users.mk (users.id u) v (users.email u) (users.password u) (users.role u)
  else if (column =? "email")%string then
    users.mk (users.id u) (users.username u) v (users.password u) (users.role u)
  else if (column =? "password")%string then
    users.mk (users.id u) (users.username u) (users.email u) v (users.role u)
  else if (column =? "role")%string then
    users.mk (users.id u) (users.username u) (users.email u) (users.password u) v
  else u.

(** Does the updated row [u] share its name, or its address, with
    another row? *)
Definition username_clash (rows : list users.row) (u : users.row) : bool :=
  (1 <? List.length (filter (fun x => sql_eq (users.username x) (users.username u))
                            rows))%nat.

Definition email_clash (rows : list users.row) (u : users.row) : bool :=
  (1 <? List.length (filter (fun x => sql_eq (users.email x) (users.email u))
                            rows))%nat.

(** [UPDATE users SET c1 = ?, ..., cn = ? WHERE id = ?]. The driver
    refuses it when a bound value is undefined. The statement is
    refused when it names a column the model does not assign (the
    numeric and timestamp columns included), and when an updated row
    collides on a UNIQUE key. *)
Definition update_users (set : list (string * option string)) (id : Z) : M OkPacket :=
  fun s =>
    if negb (defined (map snd set)) then (Throw bind_undefined, s) else
    match find (fun a => negb (mem (fst a) users_text_columns)) set with
    | Some a => (Throw (bad_field (fst a)), s)
    | None =>
        let rows :=
          map (fun u => if users.id u =? id then fold_left assign_user set u else u)
              (users_table s) in
        match find (fun u => (users.id u =? id)
                             && (username_clash rows u || email_clash rows u))
                   rows with
        | Some u =>
            if username_clash rows u
            then (Throw (dup_entry (users.username u) "users.username"), s)
            else (Throw (dup_entry (users.email u) "users.email"), s)
        | None =>
            (Ok (mkOk 0 (List.length (filter (fun u => users.id u =? id) (users_table s)))),
             mkStore rows (users_auto_increment s)
                     (tasks_table s) (tasks_auto_increment s))
        end
    end.

(** [DELETE FROM users WHERE id = ?]; the foreign key of [tasks] is
    declared ON DELETE CASCADE, so the tasks of a deleted user go with
    it. *)
Definition delete_users (id : Z) : M OkPacket :=
  fun s =>
    let n := List.length (filter (fun u => users.id u =? id) (users_table s)) in
    let kept := filter (fun u => negb (users.id u =? id)) (users_table s) in
    let tasks :=
      if (0 <? n)%nat
      then filter (fun t => negb (tasks.user_id t =? id)) (tasks_table s)
      else tasks_table s in
    (Ok (mkOk 0 n),
     mkStore kept (users_auto_increment s) tasks (tasks_auto_increment s)).

(** *** Table [tasks] *)

(** A row of [SELECT t.*, u.username, u.email FROM tasks t
    LEFT JOIN users u ON t.user_id = u.id]. *)
Record joined : Type := mkJoined {
  task : tasks.row;
  owner_username : option string;
  owner_email : option string
}.

Definition left_join_users (us : list users.row) (t : tasks.row) : list joined :=
  match filter (fun u => tasks.user_id t =? users.id u) us with
  | [] => [mkJoined t None None]
  | owners => map (fun u => mkJoined t (users.username u) (users.email u)) owners
  end.

(** [SELECT t.*, u.username, u.email FROM tasks t LEFT JOIN users u
    ON t.user_id = u.id WHERE t.id = ?] *)
Definition select_task_by_id (id : Z) : M (list joined) :=
  fun s =>
    (Ok (flat_map (left_join_users (users_table s))
           (filter (fun t => tasks.id t =? id) (tasks_table s))), s).

(** The optional filters of the listing and counting queries. Each is
    appended to the statement when its value is truthy: a status or a
    priority that is a non-empty string, a user id that is not 0. *)
Record filters : Type := mkFilters {
  by_status : option string;
  by_priority : option string;
  by_user_id : option Z
}.

Definition matches (f : filters) (t : tasks.row) : bool :=
  and_eq (truthy (by_status f)) (tasks.status t) (by_status f)
  && and_eq (truthy (by_priority f)) (tasks.priority t) (by_priority f)
  && match by_user_id f with
     | Some uid => if uid =? 0 then true else tasks.user_id t =? uid
     | None => true
     end.

(** [SELECT * FROM tasks WHERE user_id = ? [AND status = ?]
    [AND priority = ?] ORDER BY created_at DESC LIMIT ? OFFSET ?] *)
Definition select_tasks_by_user
    (userId : Z) (status priority : option string) (limit offset : nat)
  : M (list tasks.row) :=
  fun s =>
    (Ok (limit_offset limit offset
           (order_by_desc tasks.created_at
              (filter (fun t => (tasks.user_id t =? userId)
                                && matches (mkFilters status priority None) t)
                      (tasks_table s)))), s).

(** [SELECT t.*, u.username, u.email FROM tasks t LEFT JOIN users u
    ON t.user_id = u.id WHERE 1=1 [AND t.status = ?] [AND t.priority = ?]
    [AND t.user_id = ?] ORDER BY t.created_at DESC LIMIT ? OFFSET ?] *)
Definition select_tasks (f : filters) (limit offset : nat) : M (list joined) :=
  fun s =>
    (Ok (limit_offset limit offset
           (order_by_desc (fun j => tasks.created_at (task j))
              (flat_map (left_join_users (users_table s))
                 (filter (matches f) (tasks_table s))))), s).

(** [SELECT COUNT( * ) as total FROM tasks WHERE 1=1 [AND user_id = ?]
    [AND status = ?] [AND priority = ?]] *)
Definition count_tasks (f : filters) : M nat :=
  fun s => (Ok (List.length (filter (matches f) (tasks_table s))), s).

(** [INSERT INTO tasks (title, description, status, priority, due_date,
    user_id) VALUES (?, ?, ?, ?, ?, ?)] at time [now]; refused by the
    driver when a bound value is undefined, and by the foreign key when
    no user has id [user_id]. *)
Definition insert_task
    (now : Z) (title description status priority due_date : option string)
    (user_id : Z) : M OkPacket :=
  fun s =>
    if negb (defined [title; description; status; priority; due_date])
    then (Throw bind_undefined, s)
    else if existsb (fun u => users.id u =? user_id) (users_table s) then
      let id := fresh_id tasks.id (tasks_auto_increment s) (tasks_table s) in
      let t := tasks.mk id title description status priority due_date
                        user_id now in
      (Ok (mkOk id 1),
       mkStore (users_table s) (users_auto_increment s)
               (tasks_table s ++ [t]) (id + 1))
    else (Throw no_referenced_row, s).

(** The text columns of [tasks] an assignment [column = ?] can write. *)
Definition tasks_text_columns : list string :=
  ["title"; "description"; "status"; "priority"; "due_date"].

Definition assign_task (t : tasks.row) (a : string * option string) : tasks.row :=
  let (column, v) := a in
  if (column =? "title")%string then
    tasks.mk (tasks.id t) v (tasks.description t) (tasks.status t)
             (tasks.priority t) (tasks.due_date t) (tasks.user_id t)
             (tasks.created_at t)
  else if (column =? "description")%string then
    tasks.mk (tasks.id t) (tasks.title t) v (tasks.status t)
             (tasks.priority t) (tasks.due_date t) (tasks.user_id t)
             (tasks.created_at t)
  else if (column =? "status")%string then
    tasks.mk (tasks.id t) (tasks.title t) (tasks.description t) v
             (tasks.priority t) (tasks.due_date t) (tasks.user_id t)
             (tasks.created_at t)
  else if (column =? "priority")%string then
    tasks.mk (tasks.id t) (tasks.title t) (tasks.description t)
             (tasks.status t) v (tasks.due_date t) (tasks.user_id t)
             (tasks.created_at t)
  else if (column =? "due_date")%string then
    tasks.mk (tasks.id t) (tasks.title t) (tasks.description t)
             (tasks.status t) (tasks.priority t) v (tasks.user_id t)
             (tasks.created_at t)
  else t.

(** [UPDATE tasks SET c1 = ?, ..., cn = ? WHERE id = ?]; refused by the
    driver when a bound value is undefined. *)
Definition update_tasks (set : list (string * option string)) (id : Z) : M OkPacket :=
  fun s =>
    if negb (defined (map snd set)) then (Throw bind_undefined, s) else
    match find (fun a => negb (mem (fst a) tasks_text_columns)) set with
    | Some a => (Throw (bad_field (fst a)), s)
    | None =>
        (Ok (mkOk 0 (List.length (filter (fun t => tasks.id t =? id) (tasks_table s)))),
         mkStore (users_table s) (users_auto_increment s)
                 (map (fun t => if tasks.id t =? id
                                then fold_left assign_task set t else t)
                      (tasks_table s))
                 (tasks_auto_increment s))
    end.

(** [DELETE FROM tasks WHERE id = ?] *)
Definition delete_tasks (id : Z) : M OkPacket :=
  fun s =>
    (Ok (mkOk 0 (List.length (filter (fun t => tasks.id t =? id) (tasks_table s)))),
     mkStore (users_table s) (users_auto_increment s)
             (filter (fun t => negb (tasks.id t =? id)) (tasks_table s))
             (tasks_auto_increment s)).

(** The row of the statistics query. [COUNT] is a number; a [SUM] is
    NULL when the WHERE clause keeps no row. *)
Record stats : Type := mkStats {
  total : nat;
  completed : option nat;
  in_progress : option nat;
  pending : option nat;
  cancelled : option nat
}.

(** [SUM(CASE WHEN status = 'v' THEN 1 ELSE 0 END)] over [rows]. *)
Definition sum_status (v : string) (rows : list tasks.row) : option nat :=
  match rows with
  | [] => None
  | _ => Some (List.length (filter (fun t => sql_eq (tasks.status t) (Some v)) rows))
  end.

(** [SELECT COUNT( * ) as total, SUM(...) as completed, SUM(...) as
    in_progress, SUM(...) as pending, SUM(...) as cancelled FROM tasks
    WHERE user_id = ?]: an aggregate without GROUP BY answers one row. *)
Definition select_stats (userId : Z) : M (list stats) :=
  fun s =>
    let rows := filter (fun t => tasks.user_id t =? userId) (tasks_table s) in
    (Ok [mkStats (List.length rows)
                 (sum_status "completed" rows) (sum_status "in_progress" rows)
                 (sum_status "pending" rows) (sum_status "cancelled" rows)], s).

(** [INSERT IGNORE INTO users (username, email, password, role)
    VALUES (?, ?, ?, ?)]: a row that collides on a key is skipped, and
    the statement succeeds with no row affected. *)
Definition insert_ignore_user (username email password role : option string)
  : M OkPacket :=
  fun s =>
    if username_taken username s || email_taken email s
    then (Ok (mkOk 0 0), s)
    else insert_user username email password role s.

End Db.

(** ** The environment and the libraries *)

(** [process.env]. A lifetime is given in seconds, as the clock is; an
    unset variable is [None]. *)
Record Env : Type := mkEnv {
  JWT_SECRET : string;
  JWT_REFRESH_SECRET : string;
  JWT_EXPIRE : option Z;
  JWT_REFRESH_EXPIRE : option Z;
  BCRYPT_ROUNDS : option nat
}.

(** The two functions used of [bcryptjs]. *)
Record Bcrypt : Type := mkBcrypt {
  bcrypt_hash : string -> nat -> string;
  bcrypt_compare : string -> string -> bool
}.

Definition days (n : Z) : Z := n * 24 * 60 * 60.

(** [a || b] on numbers: [0] and [NaN] are falsy. *)
Definition or_number (a : option nat) (b : nat) : nat :=
  match a with
  | Some 0%nat | None => b
  | Some n => n
  end.

(** ** utils/jwt.js *)

(** Tokens are symbolic: the HMAC of [jsonwebtoken] is a free
    constructor over the secret and the signed claims, so a signature
    checks under a secret exactly when it was made with it. *)
Module jwt.

(** The object given to [jwt.sign]; [role] may be missing. *)
Record payload : Type := mkPayload {
  id : Z;
  role : option (option string)
}.

(** The claims of a token: the payload with [iat] and [exp]. *)
Record claims : Type := mkClaims {
  body : payload;
  iat : Z;
  exp : Z
}.

Inductive signature : Type :=
| HS256 (secret : string) (signed : claims).

(** What arrives as a token: a signed set of claims, or a string that
    does not parse as one. *)
Inductive token : Type :=
| Jws (c : claims) (sig : signature)
| Malformed (raw : string).

Definition role_eqb (a b : option (option string)) : bool :=
  match a, b with
  | Some x, Some y => text_eqb x y
  | None, None => true
  | _, _ => false
  end.

Definition claims_eqb (a b : claims) : bool :=
  (id (body a) =? id (body b))
  && role_eqb (role (body a)) (role (body b))
  && (iat a =? iat b) && (exp a =? exp b).

Definition signature_eqb (a b : signature) : bool :=
  match a, b with
  | HS256 k1 c1, HS256 k2 c2 => (k1 =? k2)%string && claims_eqb c1 c2
  end.

(** [jwt.sign(payload, secret, { expiresIn })] at time [now]. *)
Definition sign (now : Z) (p : payload) (secret : string) (expiresIn : Z) : token :=
  let c := mkClaims p now (now + expiresIn) in
  Jws c (HS256 secret c).

(** [jwt.verify(token, secret)] at time [now]. *)
Definition verify (now : Z) (t : token) (secret : string) : Result claims :=
  match t with
  | Malformed _ => Throw (JsError "jwt malformed")
  | Jws c sig =>
      if signature_eqb sig (HS256 secret c) then
        if exp c <=? now then Throw (JsError "jwt expired")
        else Ok c
      else Throw (JsError "invalid signature")
  end.

Section Tokens.
Variable env : Env.
Variable now : Z.

Definition generateAccessToken (p : payload) : token :=
  sign now p (JWT_SECRET env) (default (days 7) (JWT_EXPIRE env)).

Definition generateRefreshToken (p : payload) : token :=
  sign now p (JWT_REFRESH_SECRET env) (default (days 30) (JWT_REFRESH_EXPIRE env)).

Definition verifyAccessToken (t : token) : Result claims :=
  match verify now t (JWT_SECRET env) with
  | Ok c => Ok c
  | Throw _ => Throw (JsError "Invalid or expired token")
  end.

Definition verifyRefreshToken (t : token) : Result claims :=
  match verify now t (JWT_REFRESH_SECRET env) with
  | Ok c => Ok c
  | Throw _ => Throw (JsError "Invalid or expired refresh token")
  end.
End Tokens.

End jwt.

(** A synchronous call that may throw, inside an [async] function. *)
Definition lift {A : Type} (r : Result A) : M A := fun s => (r, s).

(** ** models/User.js *)
Module User.

(** A user as the model hands it out: without the password. *)
Record profile : Type := mkProfile {
  id : Z;
  username : option string;
  email : option string;
  role : option string
}.

Definition project (u : users.row) : profile :=
  mkProfile (users.id u) (users.username u) (users.email u) (users.role u).

Definition allowedFields : list string := ["username"; "email"; "role"].

Section Model.
Variable bcrypt : Bcrypt.
Variable env : Env.

Definition create (username email password : string) (role : option string)
  : M profile :=
  let role := default "user" role in
  let hashedPassword :=
    bcrypt_hash bcrypt password (or_number (BCRYPT_ROUNDS env) 10) in
  await result <- Db.insert_user (Some username) (Some email)
                                 (Some hashedPassword) (Some role) ;;
  ret (mkProfile (Db.insertId result) (Some username) (Some email) (Some role)).

Definition verifyPassword (plainPassword hashedPassword : string) : bool :=
  bcrypt_compare bcrypt plainPassword hashedPassword.
End Model.

Definition findById (id : Z) : M (option profile) :=
  await results <- Db.select_users_by_id id ;;
  ret (option_map project (hd_error results)).

Definition findByEmail (email : string) : M (option users.row) :=
  await results <- Db.select_users_by_email (Some email) ;;
  ret (hd_error results).

Definition findByUsername (username : string) : M (option profile) :=
  await results <- Db.select_users_by_username (Some username) ;;
  ret (option_map project (hd_error results)).

(** The assignments of the UPDATE statement: [setClause] with [values]. *)
Definition assignments (updates : object) : list (string * option string) :=
  let fields := filter (fun key => mem key allowedFields) (keys updates) in
  map (fun field => (field, get updates field)) fields.

Definition update (id : Z) (updates : object) : M (option profile) :=
  let fields := filter (fun key => mem key allowedFields) (keys updates) in
  if (List.length fields =? 0)%nat then
    throw (JsError "No valid fields to update")
  else
    await_ Db.update_users (assignments updates) id ;;
    findById id.

Definition delete (id : Z) : M bool :=
  await result <- Db.delete_users id ;;
  ret (0 <? Db.affectedRows result)%nat.

End User.

(** ** models/Task.js *)
Module Task.

Definition allowedFields : list string :=
  ["title"; "description"; "status"; "priority"; "due_date"].

(** The options object of the listing functions. *)
Record options : Type := mkOptions {
  limit : option nat;
  offset : option nat;
  status : option string;
  priority : option string;
  user_id : option Z
}.

Definition findById (id : Z) : M (option Db.joined) :=
  await results <- Db.select_task_by_id id ;;
  ret (hd_error results).

Definition create (now : Z)
    (title description status priority due_date : option string) (user_id : Z)
  : M (option Db.joined) :=
  let status := Some (default "pending" status) in
  let priority := Some (default "medium" priority) in
  await result <- Db.insert_task now title description status priority
                                 due_date user_id ;;
  findById (Db.insertId result).

Definition findByUserId (userId : Z) (o : options) : M (list tasks.row) :=
  Db.select_tasks_by_user userId (status o) (priority o)
    (default 10%nat (limit o)) (default 0%nat (offset o)).

Definition findAll (o : options) : M (list Db.joined) :=
  Db.select_tasks (Db.mkFilters (status o) (priority o) (user_id o))
    (default 10%nat (limit o)) (default 0%nat (offset o)).

(** The assignments of the UPDATE statement: [setClause] with [values]. *)
Definition assignments (updates : object) : list (string * option string) :=
  let fields := filter (fun key => mem key allowedFields) (keys updates) in
  map (fun field => (field, get updates field)) fields.

(** The ownership test both mutations start with, unless [isAdmin]. *)
Definition verify_ownership (id userId : Z) (isAdmin : bool) : M unit :=
  if negb isAdmin then
    await task <- findById id ;;
    match task with
    | None => throw (JsError "Task not found or unauthorized")
    | Some t =>
        if negb (tasks.user_id (Db.task t) =? userId)
        then throw (JsError "Task not found or unauthorized")
        else ret tt
    end
  else ret tt.

Definition update (id userId : Z) (updates : object) (isAdmin : bool)
  : M (option Db.joined) :=
  await_ verify_ownership id userId isAdmin ;;
  let fields := filter (fun key => mem key allowedFields) (keys updates) in
  if (List.length fields =? 0)%nat then
    throw (JsError "No valid fields to update")
  else
    await_ Db.update_tasks (assignments updates) id ;;
    findById id.

Definition delete (id userId : Z) (isAdmin : bool) : M bool :=
  await_ verify_ownership id userId isAdmin ;;
  await result <- Db.delete_tasks id ;;
  ret (0 <? Db.affectedRows result)%nat.

(** [count(userId, filters)]; [userId] is [null] for the administrator. *)
Definition count (userId : option Z) (status priority : option string) : M nat :=
  Db.count_tasks (Db.mkFilters status priority userId).

Definition getStats (userId : Z) : M (option Db.stats) :=
  await results <- Db.select_stats userId ;;
  ret (hd_error results).

End Task.

(** ** Requests, responses and handlers *)

Module req.
(** [req.user], the principal the authentication middleware attached. *)
Record user : Type := mkUser {
  id : Z;
  role : option string
}.

(** [req.body] of the task routes. *)
Record body : Type := mkBody {
  title : option string;
  description : option string;
  status : option string;
  priority : option string;
  due_date : option string
}.
End req.

Module res.
(** A response: [res.status(status).json({ success, message, data })]. *)
Record t (D : Type) : Type := mk {
  status : nat;
  success : bool;
  message : option string;
  data : option D
}.
Arguments mk {D} status success message data.
Arguments status {D} t.
Arguments success {D} t.
Arguments message {D} t.
Arguments data {D} t.

(** [res.status(code).json({ success: false, message })] *)
Definition failure {D : Type} (code : nat) (message : string) : t D :=
  mk code false (Some message) None.
End res.

(** What a handler does with a request: it sends a response, or passes
    an error on with [next(error)]. *)
Inductive Outcome (D : Type) : Type :=
| Sent (r : res.t D)
| Next (e : Error).
Arguments Sent {D} r.
Arguments Next {D} e.

Definition Handler (D : Type) : Type := Store -> Outcome D * Store.

(** [try { body } catch (error) { recover error }], where [recover]
    answers or calls [next]. *)
Definition try_handler {D : Type} (body : M (res.t D)) (recover : Error -> Outcome D)
  : Handler D :=
  fun s =>
    match body s with
    | (Ok r, s') => (Sent r, s')
    | (Throw e, s') => (recover e, s')
    end.

(** [try { body } catch (error) { next(error) }] *)
Definition handler {D : Type} (body : M (res.t D)) : Handler D :=
  try_handler body Next.

(** The HTTP status of an outcome the handler itself answered. *)
Definition sent_status {D : Type} (o : Outcome D) : option nat :=
  match o with
  | Sent r => Some (res.status r)
  | Next _ => None
  end.

(** ** controllers/authController.js *)

Module auth.
(** The data of a successful registration or login. *)
Record data : Type := mk {
  user : User.profile;
  accessToken : jwt.token;
  refreshToken : jwt.token
}.
End auth.

Module authController.
Section Handlers.
Variable bcrypt : Bcrypt.
Variable env : Env.
Variable now : Z.

(** [bcrypt.compare] refuses a hash that is not a string. *)
Definition verifyPassword (password : string) (hashed : option string) : M bool :=
  match hashed with
  | Some h => ret (User.verifyPassword bcrypt password h)
  | None => throw (JsError "Illegal arguments: string, object")
  end.

(** [POST /api/v1/auth/register] *)
Definition register (username email password : string) (role : option string)
  : Handler auth.data :=
  handler (
    await existingUser <- User.findByEmail email ;;
    match existingUser with
    | Some _ => ret (res.failure 400 "User with this email already exists")
    | None =>
        await user <- User.create bcrypt env username email password role ;;
        let accessToken :=
          jwt.generateAccessToken env now
            (jwt.mkPayload (User.id user) (Some (User.role user))) in
        let refreshToken :=
          jwt.generateRefreshToken env now
            (jwt.mkPayload (User.id user) None) in
        ret (res.mk 201 true (Some "User registered successfully")
               (Some (auth.mk
                        (User.mkProfile (User.id user) (User.username user)
                                        (User.email user) (User.role user))
                        accessToken refreshToken)))
    end).

(** [POST /api/v1/auth/login] *)
Definition login (email password : string) : Handler auth.data :=
  handler (
    await user <- User.findByEmail email ;;
    match user with
    | None => ret (res.failure 401 "Invalid credentials")
    | Some user =>
        await isPasswordValid <- verifyPassword password (users.password user) ;;
        if negb isPasswordValid then
          ret (res.failure 401 "Invalid credentials")
        else
          let accessToken :=
            jwt.generateAccessToken env now
              (jwt.mkPayload (users.id user) (Some (users.role user))) in
          let refreshToken :=
            jwt.generateRefreshToken env now
              (jwt.mkPayload (users.id user) None) in
          ret (res.mk 200 true (Some "Login successful")
                 (Some (auth.mk (User.project user) accessToken refreshToken)))
    end).

(** [POST /api/v1/auth/refresh]; the body's [refreshToken] is [None]
    when missing or empty. *)
Definition refreshToken (refreshToken : option jwt.token) : Handler jwt.token :=
  handler (
    match refreshToken with
    | None => ret (res.failure 400 "Refresh token is required")
    | Some token =>
        await decoded <- lift (jwt.verifyRefreshToken env now token) ;;
        await user <- User.findById (jwt.id (jwt.body decoded)) ;;
        match user with
        | None => ret (res.failure 401 "User not found")
        | Some user =>
            let newAccessToken :=
              jwt.generateAccessToken env now
                (jwt.mkPayload (User.id user) (Some (User.role user))) in
            ret (res.mk 200 true (Some "Token refreshed successfully")
                   (Some newAccessToken))
        end
    end).
End Handlers.

(** [GET /api/v1/auth/me] *)
Definition getMe (user : req.user) : Handler (option User.profile) :=
  handler (
    await user <- User.findById (req.id user) ;;
    ret (res.mk 200 true None (Some user))).

(** [PUT /api/v1/auth/me] *)
Definition updateProfile (user : req.user) (username email : option string)
  : Handler (option User.profile) :=
  handler (
    await updatedUser <-
      User.update (req.id user) [("username", username); ("email", email)] ;;
    ret (res.mk 200 true (Some "Profile updated successfully") (Some updatedUser))).

End authController.

(** ** controllers/taskController.js *)

Module listing.
(** The tasks of a page: the administrator's listing joins the owner's
    name and address, the user's does not. *)
Inductive rows : Type :=
| Joined (l : list Db.joined)
| Plain (l : list tasks.row).

Definition tasks_of (r : rows) : list tasks.row :=
  match r with
  | Joined l => map Db.task l
  | Plain l => l
  end.

Record data : Type := mk {
  tasks : rows;
  total : nat;
  limit : nat;
  offset : nat;
  hasMore : bool
}.
End listing.

Module taskController.

(** [POST /api/v1/tasks] at time [now]. *)
Definition createTask (now : Z) (user : req.user) (body : req.body)
  : Handler (option Db.joined) :=
  handler (
    await task <- Task.create now (req.title body) (req.description body)
                              (req.status body) (req.priority body)
                              (req.due_date body) (req.id user) ;;
    ret (res.mk 201 true (Some "Task created successfully") (Some task))).

(** [GET /api/v1/tasks] *)
Definition getTasks (user : req.user)
    (limit offset : option nat) (status priority : option string)
  : Handler listing.data :=
  handler (
    let limit := default 10%nat limit in
    let offset := default 0%nat offset in
    let isAdmin := is_admin_role (req.role user) in
    let options :=
      Task.mkOptions (Some limit) (Some offset) status priority None in
    await found <-
      (if isAdmin then
         await tasks <- Task.findAll options ;;
         await total <- Task.count None status priority ;;
         ret (listing.Joined tasks, total)
       else
         await tasks <- Task.findByUserId (req.id user) options ;;
         await total <- Task.count (Some (req.id user)) status priority ;;
         ret (listing.Plain tasks, total)) ;;
    let (tasks, total) := found : listing.rows * nat in
    ret (res.mk 200 true None
           (Some (listing.mk tasks total limit offset
                             (offset + limit <? total)%nat)))).

(** [GET /api/v1/tasks/:id] *)
Definition getTask (user : req.user) (id : Z) : Handler Db.joined :=
  handler (
    await task <- Task.findById id ;;
    match task with
    | None => ret (res.failure 404 "Task not found")
    | Some task =>
        if negb (tasks.user_id (Db.task task) =? req.id user)
           && negb (is_admin_role (req.role user))
        then ret (res.failure 403 "Not authorized to access this task")
        else ret (res.mk 200 true None (Some task))
    end).

(** The [catch] of the two mutations. *)
Definition not_found_or_next {D : Type} (error : Error) : Outcome D :=
  if includes (message error) "not found" || includes (message error) "unauthorized"
  then Sent (res.failure 404 (message error))
  else Next error.

(** [PUT /api/v1/tasks/:id] *)
Definition updateTask (user : req.user) (id : Z) (body : req.body)
  : Handler (option Db.joined) :=
  try_handler (
    let isAdmin := is_admin_role (req.role user) in
    await task <-
      Task.update id (req.id user)
        [("title", req.title body); ("description", req.description body);
         ("status", req.status body); ("priority", req.priority body);
         ("due_date", req.due_date body)]
        isAdmin ;;
    ret (res.mk 200 true (Some "Task updated successfully") (Some task)))
    not_found_or_next.

(** [DELETE /api/v1/tasks/:id] *)
Definition deleteTask (user : req.user) (id : Z) : Handler unit :=
  try_handler (
    let isAdmin := is_admin_role (req.role user) in
    await deleted <- Task.delete id (req.id user) isAdmin ;;
    if negb deleted then ret (res.failure 404 "Task not found")
    else ret (res.mk 200 true (Some "Task deleted successfully") None))
    not_found_or_next.

(** [GET /api/v1/tasks/stats] *)
Definition getTaskStats (user : req.user) : Handler (option Db.stats) :=
  handler (
    await stats <- Task.getStats (req.id user) ;;
    ret (res.mk 200 true None (Some stats))).

End taskController.

(** ** controllers/userController.js *)
Module userController.

(** [GET /api/v1/users/:id] *)
Definition getUser (id : Z) : Handler User.profile :=
  handler (
    await user <- User.findById id ;;
    match user with
    | None => ret (res.failure 404 "User not found")
    | Some user => ret (res.mk 200 true None (Some user))
    end).

(** [PUT /api/v1/users/:id] *)
Definition updateUser (id : Z) (username email role : option string)
  : Handler (option User.profile) :=
  handler (
    await user <-
      User.update id [("username", username); ("email", email); ("role", role)] ;;
    ret (res.mk 200 true (Some "User updated successfully") (Some user))).

(** [DELETE /api/v1/users/:id] *)
Definition deleteUser (user : req.user) (id : Z) : Handler unit :=
  handler (
    if id =? req.id user then
      ret (res.failure 400 "You cannot delete your own account")
    else
      await deleted <- User.delete id ;;
      if negb deleted then ret (res.failure 404 "User not found")
      else ret (res.mk 200 true (Some "User deleted successfully") None)).

End userController.

(** ** The seeding script *)
Module seed.

(** A sample task of the script; [due_in] is the offset of its due date
    from the time of the run. *)
Record sample_task : Type := mkSample {
  title : string;
  description : string;
  status : string;
  priority : string;
  due_in : Z
}.

Definition sample_tasks : list sample_task :=
  [mkSample "Complete project documentation"
            "Write comprehensive API documentation with examples"
            "in_progress" "high" (days 7);
   mkSample "Review pull requests"
            "Review and merge pending pull requests"
            "pending" "medium" (days 3);
   mkSample "Deploy to production"
            "Deploy latest changes to production environment"
            "pending" "urgent" (days 1);
   mkSample "Team meeting"
            "Weekly sync with the development team"
            "completed" "low" (- days 2)].

(** [for (const x of l) { await body(x) }] *)
Fixpoint for_each {A : Type} (l : list A) (body : A -> M unit) : M unit :=
  match l with
  | [] => ret tt
  | a :: rest => await_ body a ;; for_each rest body
  end.

Section Script.
Variable bcrypt : Bcrypt.
(** The time of the run, and how the driver writes a date into a
    statement. *)
Variable now : Z.
Variable render : Z -> string.

(** The script proper; it ends the process with code 0, or with code 1
    when anything throws. *)
Definition seedDatabase : Store -> nat * Store :=
  fun s =>
    let adminPassword := bcrypt_hash bcrypt "admin123" 10 in
    let userPassword := bcrypt_hash bcrypt "user123" 10 in
    let script : M unit :=
      await_ Db.insert_ignore_user (Some "admin") (Some "admin@example.com")
                                   (Some adminPassword) (Some "admin") ;;
      await_ Db.insert_ignore_user (Some "john_doe") (Some "john@example.com")
                                   (Some userPassword) (Some "user") ;;
      await users <- Db.select_users_by_email (Some "john@example.com") ;;
      match hd_error users with
      | None =>
          throw (JsError "Cannot read properties of undefined (reading 'id')")
      | Some user =>
          let userId := users.id user in
          for_each sample_tasks (fun task =>
            await_ Db.insert_task now (Some (title task)) (Some (description task))
                                  (Some (status task)) (Some (priority task))
                                  (Some (render (now + due_in task))) userId ;;
            ret tt)
      end in
    match script s with
    | (Ok _, s') => (0%nat, s')
    | (Throw _, s') => (1%nat, s')
    end.
End Script.

End seed.

(** ** The error middleware *)

(** Modelled from the spec: the error middleware (middleware/errorHandler.js,
    mounted last by the application) is not among the sources. Section 7
    of the specification gives the status each kind of failure is
    answered with: a duplicate identity 400, a token that is invalid or
    expired 401, any other failure 500 without detail. *)
Definition errorHandler {D : Type} (error : Error) : res.t D :=
  match error with
  | DbError code _ =>
      if (code =? "ER_DUP_ENTRY")%string then res.failure 400 "DuplicateIdentity"
      else res.failure 500 "InternalStoreFailure"
  | JsError m =>
      if includes m "Invalid or expired" then res.failure 401 "Unauthenticated"
      else res.failure 500 "InternalStoreFailure"
  end.

(** A handler mounted in the application: what it passes to [next]
    reaches the error middleware. *)
Definition mounted {D : Type} (h : Handler D) : Store -> res.t D * Store :=
  fun s =>
    match h s with
    | (Sent r, s') => (r, s')
    | (Next e, s') => (errorHandler e, s')
    end.

(** ** Vocabulary of the statements *)

(** The task the store holds under an id, and the user. *)
Definition stored_task (id : Z) (s : Store) : option tasks.row :=
  find (fun t => tasks.id t =? id) (tasks_table s).

Definition stored_user (id : Z) (s : Store) : option users.row :=
  find (fun u => users.id u =? id) (users_table s).

(** The first row the join answers for a task. *)
Definition first_join (us : list users.row) (t : tasks.row) : Db.joined :=
  hd (Db.mkJoined t None None) (Db.left_join_users us t).

(** The merged error of the two mutations of the task model. *)
Definition denied : Error := JsError "Task not found or unauthorized".

(** Does the ownership test of the task model let the caller through? *)
Definition passes (id userId : Z) (isAdmin : bool) (s : Store) : bool :=
  isAdmin
  || match stored_task id s with
     | Some t => tasks.user_id t =? userId
     | None => false
     end.

(** The body of an update as the object the controller hands the model. *)
Definition updates_of (body : req.body) : object :=
  [("title", req.title body); ("description", req.description body);
   ("status", req.status body); ("priority", req.priority body);
   ("due_date", req.due_date body)].

(** Does the body carry all five fields of a task? *)
Definition complete (body : req.body) : bool :=
  Db.defined [req.title body; req.description body; req.status body;
              req.priority body; req.due_date body].

(** The administrator's result set, before LIMIT and OFFSET cut a page
    out of it. *)
Definition all_matching (status priority : option string) (s : Store)
  : list Db.joined :=
  Db.order_by_desc (fun j => tasks.created_at (Db.task j))
    (flat_map (Db.left_join_users (users_table s))
       (filter (Db.matches (Db.mkFilters status priority None)) (tasks_table s))).

(** The options the listing endpoint hands the model. *)
Definition listing_options (limit offset : option nat) (status priority : option string)
  : Task.options :=
  Task.mkOptions (Some (default 10%nat limit)) (Some (default 0%nat offset))
                 status priority None.

(** The role claim a token carries, if it carries one. *)
Definition claimed_role (t : jwt.token) : option (option string) :=
  match t with
  | jwt.Jws c _ => jwt.role (jwt.body c)
  | jwt.Malformed _ => None
  end.

(** The row a registration adds to [users], and the store it leaves. *)
Definition registered (bcrypt : Bcrypt) (env : Env)
    (username email password : string) (role : option string) (s : Store)
  : users.row :=
  users.mk (Db.fresh_id users.id (users_auto_increment s) (users_table s))
           (Some username) (Some email)
           (Some (bcrypt_hash bcrypt password (or_number (BCRYPT_ROUNDS env) 10)))
           (Some (default "user" role)).

Definition after_register (bcrypt : Bcrypt) (env : Env)
    (username email password : string) (role : option string) (s : Store)
  : Store :=
  let u := registered bcrypt env username email password role s in
  mkStore (users_table s ++ [u]) (users.id u + 1)
          (tasks_table s) (tasks_auto_increment s).

Inductive operation : Type := Read | Update | Delete.

(** The policy in the words of the specification: access is granted to
    an administrator and to the owner, whatever the operation. *)
Definition spec_canAccessTask (principal : req.user) (task : tasks.row)
    (op : operation) : bool :=
  is_admin_role (req.role principal) || (tasks.user_id task =? req.id principal).

(** The HTTP status the task controller answers an operation on task
    [id] with; [None] when it hands an error to [next]. [body] is the
    body of the update. *)
Definition task_operation_status (op : operation) (principal : req.user) (id : Z)
    (body : req.body) (s : Store) : option nat :=
  match op with
  | Read => sent_status (fst (taskController.getTask principal id s))
  | Update => sent_status (fst (taskController.updateTask principal id body s))
  | Delete => sent_status (fst (taskController.deleteTask principal id s))
  end.

(** ** A sample deployment *)

(** Two users, an administrator, and three tasks. *)
Module sample.

Definition env : Env :=
  mkEnv "access-secret" "refresh-secret" None None None.

(** A stand-in for the hashing library. *)
Definition bcrypt : Bcrypt :=
  mkBcrypt (fun plain _ => "$2a$" ++ plain)
           (fun plain hashed => ("$2a$" ++ plain =? hashed)%string).

Definition alice : users.row :=
  users.mk 1 (Some "alice") (Some "alice@x.com") (Some "$2a$Passw0rd1") (Some "user").
Definition bob : users.row :=
  users.mk 2 (Some "bob") (Some "bob@x.com") (Some "$2a$hunter22") (Some "user").
Definition root : users.row :=
  users.mk 3 (Some "root") (Some "root@x.com") (Some "$2a$admin123") (Some "admin").

Definition t1 : tasks.row :=
  tasks.mk 1 (Some "T1") None (Some "pending") (Some "medium") None 1 100.
Definition t2 : tasks.row :=
  tasks.mk 2 (Some "T2") None (Some "completed") (Some "high") None 2 200.
Definition t3 : tasks.row :=
  tasks.mk 3 (Some "T3") (Some "third") (Some "pending") (Some "low") None 1 300.

Definition store : Store := mkStore [alice; bob; root] 4 [t1; t2; t3] 4.

(** A fresh deployment: no user yet, hence no administrator. *)
Definition empty : Store := mkStore [] 1 [] 1.

Definition as_alice : req.user := req.mkUser 1 (Some "user").
Definition as_bob : req.user := req.mkUser 2 (Some "user").
Definition as_root : req.user := req.mkUser 3 (Some "admin").

Definition body : req.body :=
  req.mkBody (Some "renamed") None (Some "completed") None None.

(** A body that carries all five fields. *)
Definition full_body : req.body :=
  req.mkBody (Some "renamed") (Some "again") (Some "completed") (Some "high")
             (Some "2026-01-01").

(** The scenario of the specification, from a fresh deployment: alice
    registers and creates a task, then bob registers. *)
Definition alice_registered : Store :=
  snd (authController.register bcrypt env 1000
         "alice" "alice@x.com" "Passw0rd1" None empty).

Definition task_created : Store :=
  snd (taskController.createTask 1010 as_alice
         (req.mkBody (Some "T1") (Some "first") None None (Some "2026-01-01"))
         alice_registered).

Definition bob_registered : Store :=
  snd (authController.register bcrypt env 1020
         "bob" "bob@x.com" "hunter22" None task_created).

End sample.

(** ** Vocabulary of the further properties *)

(** A list in descending order of [key]. *)
Fixpoint descending {R : Type} (key : R -> Z) (l : list R) : Prop :=
  match l with
  | [] => True
  | r :: rest => (forall x, In x rest -> key x <= key r) /\ descending key rest
  end.

(** The tasks of a user that pass the status and priority filters. *)
Definition owned_matching (userId : Z) (status priority : option string) (s : Store)
  : list tasks.row :=
  filter (fun t => (tasks.user_id t =? userId)
                   && Db.matches (Db.mkFilters status priority None) t)
         (tasks_table s).

(** The tasks of a user. *)
Definition owned (userId : Z) (s : Store) : list tasks.row :=
  filter (fun t => tasks.user_id t =? userId) (tasks_table s).

(** How many of [rows] have the status [v]. *)
Definition in_status (v : string) (rows : list tasks.row) : nat :=
  List.length
    (filter (fun t => match tasks.status t with
                      | Some x => (x =? v)%string
                      | None => false
                      end) rows).

(** No name and no address is held by two rows of [users]. *)
Definition users_unique (rows : list users.row) : Prop :=
  forall x : string,
    (List.length (filter (fun u => Db.sql_eq (users.username u) (Some x)) rows) <= 1)%nat
    /\ (List.length (filter (fun u => Db.sql_eq (users.email u) (Some x)) rows) <= 1)%nat.

(** The hashing library accepts the password a hash was made of. *)
Definition bcrypt_sound (bcrypt : Bcrypt) : Prop :=
  forall plain rounds,
    bcrypt_compare bcrypt plain (bcrypt_hash bcrypt plain rounds) = true.

(** Does a creation bind defined values only? The status and the
    priority have defaults; the title, the description and the due date
    are bound as the body has them. *)
Definition bindable (body : req.body) : bool :=
  Db.defined [req.title body; req.description body; req.due_date body].

(** The row a creation adds to [tasks]. *)
Definition created (now : Z) (user : req.user) (body : req.body) (s : Store)
  : tasks.row :=
  tasks.mk (Db.fresh_id tasks.id (tasks_auto_increment s) (tasks_table s))
           (req.title body) (req.description body)
           (Some (default "pending" (req.status body)))
           (Some (default "medium" (req.priority body)))
           (req.due_date body) (req.id user) now.

(** The lifetimes of the two classes of token. *)
Definition access_lifetime (env : Env) : Z := default (days 7) (JWT_EXPIRE env).
Definition refresh_lifetime (env : Env) : Z := default (days 30) (JWT_REFRESH_EXPIRE env).

(** The store once the two INSERT IGNORE statements of the seeding
    script have run. *)
Definition seeded_users (bcrypt : Bcrypt) (s : Store) : Store :=
  snd (Db.insert_ignore_user (Some "john_doe") (Some "john@example.com")
         (Some (bcrypt_hash bcrypt "user123" 10)) (Some "user")
         (snd (Db.insert_ignore_user (Some "admin") (Some "admin@example.com")
                 (Some (bcrypt_hash bcrypt "admin123" 10)) (Some "admin") s))).

(** The loop of the seeding script. *)
Definition seed_tasks (now : Z) (render : Z -> string) (userId : Z)
    (l : list seed.sample_task) : M unit :=
  seed.for_each l (fun task =>
    await_ Db.insert_task now (Some (seed.title task)) (Some (seed.description task))
                          (Some (seed.status task)) (Some (seed.priority task))
                          (Some (render (now + seed.due_in task))) userId ;;
    ret tt).

(** * Properties *)

(** ** Running the task model *)

Lemma store_eta (s : Store) :
  mkStore (users_table s) (users_auto_increment s)
          (tasks_table s) (tasks_auto_increment s) = s.
Proof. destruct s; reflexivity. Qed.

Lemma left_join_users_hd (us : list users.row) (t : tasks.row) :
  exists j rest, Db.left_join_users us t = j :: rest /\ Db.task j = t.
Proof.
  unfold Db.left_join_users.
  destruct (filter _ us) as [|u owners]; simpl; eauto.
Qed.

Lemma task_first_join (us : list users.row) (t : tasks.row) :
  Db.task (first_join us t) = t.
Proof.
  unfold first_join.
  destruct (left_join_users_hd us t) as (j & rest & -> & Hj); exact Hj.
Qed.

Lemma hd_error_join (us : list users.row) (p : tasks.row -> bool) (l : list tasks.row) :
  hd_error (flat_map (Db.left_join_users us) (filter p l))
  = option_map (first_join us) (find p l).
Proof.
  induction l as [|t l IH]; simpl; [reflexivity|].
  destruct (p t); simpl; [|exact IH].
  unfold first_join.
  destruct (left_join_users_hd us t) as (j & rest & -> & _); reflexivity.
Qed.

Lemma findById_run (id : Z) (s : Store) :
  Task.findById id s
  = (Ok (option_map (first_join (users_table s)) (stored_task id s)), s).
Proof.
  unfold Task.findById, bind, ret, Db.select_task_by_id, stored_task.
  now rewrite hd_error_join.
Qed.

Lemma verify_ownership_run (id userId : Z) (isAdmin : bool) (s : Store) :
  Task.verify_ownership id userId isAdmin s
  = (if passes id userId isAdmin s then Ok tt else Throw denied, s).
Proof.
  unfold Task.verify_ownership, passes.
  destruct isAdmin; simpl; [reflexivity|].
  unfold bind. rewrite findById_run.
  destruct (stored_task id s) as [t|]; simpl; [|reflexivity].
  rewrite task_first_join.
  destruct (tasks.user_id t =? userId); reflexivity.
Qed.

Lemma filter_none_iff {A : Type} (p : A -> bool) (l : list A) :
  find p l = None <-> filter p l = [].
Proof.
  induction l as [|a l IH]; simpl; [tauto|].
  destruct (p a); [split; discriminate | exact IH].
Qed.

Lemma map_untouched {A : Type} (p : A -> bool) (f : A -> A) (l : list A) :
  find p l = None -> map (fun a => if p a then f a else a) l = l.
Proof.
  induction l as [|a l IH]; simpl; [reflexivity|].
  destruct (p a); [discriminate|].
  intros H; now rewrite IH.
Qed.

Lemma filter_untouched {A : Type} (p : A -> bool) (l : list A) :
  find p l = None -> filter (fun a => negb (p a)) l = l.
Proof.
  induction l as [|a l IH]; simpl; [reflexivity|].
  destruct (p a); simpl; [discriminate|].
  intros H; now rewrite IH.
Qed.

(** An allow-list within the columns of a table leaves the UPDATE only
    columns the table accepts. *)
Lemma allowed_assignments_accepted
    (allowed columns : list string) (value : string -> option string)
    (ks : list string) :
  (forall k, mem k allowed = true -> mem k columns = true) ->
  find (fun a => negb (mem (fst a) columns))
       (map (fun field => (field, value field))
            (filter (fun key => mem key allowed) ks))
  = None.
Proof.
  intros Hsub.
  induction ks as [|k ks IH]; [reflexivity|].
  cbn [filter].
  destruct (mem k allowed) eqn:Hk; [|exact IH].
  cbn [map find fst]. rewrite (Hsub k Hk). exact IH.
Qed.

Lemma task_assignments_accepted (updates : object) :
  find (fun a => negb (mem (fst a) Db.tasks_text_columns)) (Task.assignments updates)
  = None.
Proof.
  apply allowed_assignments_accepted. intros k Hk; exact Hk.
Qed.

Lemma update_refused (id userId : Z) (updates : object) (isAdmin : bool) (s : Store) :
  passes id userId isAdmin s = false ->
  Task.update id userId updates isAdmin s = (Throw denied, s).
Proof.
  intros H. unfold Task.update, bind.
  now rewrite verify_ownership_run, H.
Qed.

Lemma delete_refused (id userId : Z) (isAdmin : bool) (s : Store) :
  passes id userId isAdmin s = false ->
  Task.delete id userId isAdmin s = (Throw denied, s).
Proof.
  intros H. unfold Task.delete, bind.
  now rewrite verify_ownership_run, H.
Qed.

Lemma update_tasks_ok (updates : object) (id : Z) (s : Store) :
  Db.defined (map snd (Task.assignments updates)) = true ->
  fst (Db.update_tasks (Task.assignments updates) id s)
  = Ok (Db.mkOk 0 (List.length (filter (fun t => tasks.id t =? id) (tasks_table s)))).
Proof.
  intros Hdef. unfold Db.update_tasks.
  now rewrite Hdef, task_assignments_accepted.
Qed.

(** The driver's refusal of an undefined value leaves the store alone. *)
Lemma update_tasks_undefined (set : list (string * option string)) (id : Z) (s : Store) :
  Db.defined (map snd set) = false ->
  Db.update_tasks set id s = (Throw Db.bind_undefined, s).
Proof. intros Hdef. unfold Db.update_tasks. now rewrite Hdef. Qed.

(** Past the ownership test, an update that names an allowed field and
    binds no undefined value runs its UPDATE and answers what the store
    then holds under the id. *)
Lemma update_granted (id userId : Z) (updates : object) (isAdmin : bool) (s : Store) :
  passes id userId isAdmin s = true ->
  filter (fun key => mem key Task.allowedFields) (keys updates) <> [] ->
  Db.defined (map snd (Task.assignments updates)) = true ->
  let s' := snd (Db.update_tasks (Task.assignments updates) id s) in
  Task.update id userId updates isAdmin s
  = (Ok (option_map (first_join (users_table s')) (stored_task id s')), s').
Proof.
  intros H Hfields Hdef s'. unfold Task.update, bind.
  rewrite verify_ownership_run, H.
  destruct (filter _ (keys updates)) as [|k ks] eqn:Hk; [contradiction|].
  cbn [List.length Nat.eqb].
  subst s'. pose proof (update_tasks_ok updates id s Hdef) as Hok.
  destruct (Db.update_tasks (Task.assignments updates) id s) as [r s''].
  cbn [fst snd] in *. subst r.
  apply findById_run.
Qed.

(** Past the ownership test, an update that binds an undefined value
    ends in the driver's refusal. *)
Lemma update_unbound (id userId : Z) (updates : object) (isAdmin : bool) (s : Store) :
  passes id userId isAdmin s = true ->
  filter (fun key => mem key Task.allowedFields) (keys updates) <> [] ->
  Db.defined (map snd (Task.assignments updates)) = false ->
  Task.update id userId updates isAdmin s = (Throw Db.bind_undefined, s).
Proof.
  intros H Hfields Hdef. unfold Task.update, bind.
  rewrite verify_ownership_run, H.
  destruct (filter _ (keys updates)) as [|k ks] eqn:Hk; [contradiction|].
  cbn [List.length Nat.eqb].
  now rewrite (update_tasks_undefined _ _ _ Hdef).
Qed.

Lemma delete_granted (id userId : Z) (isAdmin : bool) (s : Store) :
  passes id userId isAdmin s = true ->
  Task.delete id userId isAdmin s
  = (Ok (match stored_task id s with Some _ => true | None => false end),
     snd (Db.delete_tasks id s)).
Proof.
  intros H. unfold Task.delete, bind.
  rewrite verify_ownership_run, H.
  unfold Db.delete_tasks, ret. cbn [snd Db.affectedRows].
  f_equal. f_equal. unfold stored_task.
  induction (tasks_table s) as [|t l IH]; cbn [filter find]; [reflexivity|].
  destruct (tasks.id t =? id); [reflexivity | exact IH].
Qed.

Lemma denied_recovered (D : Type) :
  @taskController.not_found_or_next D denied
  = Sent (res.failure 404 "Task not found or unauthorized").
Proof. reflexivity. Qed.

Lemma update_fields_of_body (body : req.body) :
  filter (fun key => mem key Task.allowedFields) (keys (updates_of body))
  = ["title"; "description"; "status"; "priority"; "due_date"].
Proof. reflexivity. Qed.

Lemma body_values_defined (body : req.body) :
  Db.defined (map snd (Task.assignments (updates_of body))) = complete body.
Proof. reflexivity. Qed.

Lemma bind_undefined_passed_on (D : Type) :
  @taskController.not_found_or_next D Db.bind_undefined = Next Db.bind_undefined.
Proof. reflexivity. Qed.

(** The update endpoint, run: a 404 with the merged message when the
    ownership test refuses; otherwise a 200 with the stored task when
    the body carries all five fields, and the driver's refusal handed
    to [next] when one is absent. *)
Lemma updateTask_run (user : req.user) (id : Z) (body : req.body) (s : Store) :
  taskController.updateTask user id body s
  = if passes id (req.id user) (is_admin_role (req.role user)) s then
      if complete body then
        let s' := snd (Db.update_tasks (Task.assignments (updates_of body)) id s) in
        (Sent (res.mk 200 true (Some "Task updated successfully")
                 (Some (option_map (first_join (users_table s')) (stored_task id s')))),
         s')
      else (Next Db.bind_undefined, s)
    else (Sent (res.failure 404 "Task not found or unauthorized"), s).
Proof.
  unfold taskController.updateTask, try_handler, bind.
  fold (updates_of body).
  destruct (passes id (req.id user) (is_admin_role (req.role user)) s) eqn:H.
  - destruct (complete body) eqn:Hc.
    + rewrite (update_granted _ _ _ _ _ H); [reflexivity | | ].
      * rewrite update_fields_of_body; discriminate.
      * now rewrite body_values_defined.
    + rewrite (update_unbound _ _ _ _ _ H);
        [now rewrite bind_undefined_passed_on | | ].
      * rewrite update_fields_of_body; discriminate.
      * now rewrite body_values_defined.
  - rewrite (update_refused _ _ _ _ _ H). now rewrite denied_recovered.
Qed.

(** The delete endpoint, run. *)
Lemma deleteTask_run (user : req.user) (id : Z) (s : Store) :
  taskController.deleteTask user id s
  = if passes id (req.id user) (is_admin_role (req.role user)) s then
      match stored_task id s with
      | Some _ =>
          (Sent (res.mk 200 true (Some "Task deleted successfully") None),
           snd (Db.delete_tasks id s))
      | None => (Sent (res.failure 404 "Task not found"), snd (Db.delete_tasks id s))
      end
    else (Sent (res.failure 404 "Task not found or unauthorized"), s).
Proof.
  unfold taskController.deleteTask, try_handler, bind.
  destruct (passes id (req.id user) (is_admin_role (req.role user)) s) eqn:H.
  - rewrite (delete_granted _ _ _ _ H).
    destruct (stored_task id s); reflexivity.
  - rewrite (delete_refused _ _ _ _ H). now rewrite denied_recovered.
Qed.

(** The read endpoint, run. *)
Lemma getTask_run (user : req.user) (id : Z) (s : Store) :
  taskController.getTask user id s
  = (match stored_task id s with
     | None => Sent (res.failure 404 "Task not found")
     | Some t =>
         if negb (tasks.user_id t =? req.id user)
            && negb (is_admin_role (req.role user))
         then Sent (res.failure 403 "Not authorized to access this task")
         else Sent (res.mk 200 true None (Some (first_join (users_table s) t)))
     end, s).
Proof.
  unfold taskController.getTask, handler, try_handler, bind.
  rewrite findById_run.
  destruct (stored_task id s) as [t|]; cbn [option_map]; [|reflexivity].
  rewrite task_first_join.
  destruct (negb (tasks.user_id t =? req.id user)
            && negb (is_admin_role (req.role user))); reflexivity.
Qed.

Lemma passes_stored (id userId : Z) (isAdmin : bool) (s : Store) (t : tasks.row) :
  stored_task id s = Some t ->
  passes id userId isAdmin s = isAdmin || (tasks.user_id t =? userId).
Proof. intros H; unfold passes; now rewrite H. Qed.

Lemma passes_missing (id userId : Z) (isAdmin : bool) (s : Store) :
  stored_task id s = None -> passes id userId isAdmin s = isAdmin.
Proof. intros H; unfold passes; rewrite H; apply orb_false_r. Qed.

(** An UPDATE or DELETE by an id no task has leaves the store as it was. *)
Lemma update_tasks_missing (set : list (string * option string)) (id : Z) (s : Store) :
  stored_task id s = None ->
  Db.defined (map snd set) = true ->
  find (fun a => negb (mem (fst a) Db.tasks_text_columns)) set = None ->
  Db.update_tasks set id s = (Ok (Db.mkOk 0 0), s).
Proof.
  intros Hnone Hdef Hcols. unfold Db.update_tasks. rewrite Hdef, Hcols. cbn [negb].
  unfold stored_task in Hnone.
  rewrite (map_untouched _ _ _ Hnone).
  apply filter_none_iff in Hnone. rewrite Hnone.
  now rewrite store_eta.
Qed.

Lemma delete_tasks_missing (id : Z) (s : Store) :
  stored_task id s = None -> Db.delete_tasks id s = (Ok (Db.mkOk 0 0), s).
Proof.
  intros Hnone. unfold Db.delete_tasks. unfold stored_task in Hnone.
  rewrite (filter_untouched _ _ Hnone).
  apply filter_none_iff in Hnone. rewrite Hnone.
  now rewrite store_eta.
Qed.

(** ** The claims on tasks *)

(** C1, as the code has it. For update and delete, a caller who is
    neither the owner nor an administrator gets, on a task of somebody
    else, exactly the response given on an id no task has: status 404,
    message 'Task not found or unauthorized', store untouched. For read
    the two cases are told apart: 403 'Not authorized to access this
    task' on the task of somebody else, 404 'Task not found' on an id no
    task has. *)
Theorem C1_denial_merged_on_update_and_delete
    (s : Store) (B : req.user) (T : tasks.row) (id missing : Z) (body : req.body) :
  stored_task id s = Some T ->
  tasks.user_id T <> req.id B ->
  is_admin_role (req.role B) = false ->
  stored_task missing s = None ->
  (taskController.updateTask B id body s
   = (Sent (res.failure 404 "Task not found or unauthorized"), s)
   /\ taskController.updateTask B missing body s
      = taskController.updateTask B id body s)
  /\ (taskController.deleteTask B id s
      = (Sent (res.failure 404 "Task not found or unauthorized"), s)
      /\ taskController.deleteTask B missing s = taskController.deleteTask B id s)
  /\ taskController.getTask B id s
     = (Sent (res.failure 403 "Not authorized to access this task"), s)
  /\ taskController.getTask B missing s
     = (Sent (res.failure 404 "Task not found"), s).
Proof.
  intros HT Hother Hrole Hmissing.
  assert (Hneq : (tasks.user_id T =? req.id B) = false) by now apply Z.eqb_neq.
  assert (Hid : passes id (req.id B) (is_admin_role (req.role B)) s = false).
  { rewrite (passes_stored _ _ _ _ _ HT), Hrole, Hneq. reflexivity. }
  assert (Hmi : passes missing (req.id B) (is_admin_role (req.role B)) s = false).
  { now rewrite (passes_missing _ _ _ _ Hmissing). }
  rewrite !updateTask_run, !deleteTask_run, !getTask_run.
  rewrite Hid, Hmi, HT, Hmissing, Hneq, Hrole.
  repeat split; reflexivity.
Qed.

Lemma C1_denial_merged_witness :
  taskController.updateTask sample.as_bob 99 sample.body sample.store
  = taskController.updateTask sample.as_bob 1 sample.body sample.store
  /\ taskController.deleteTask sample.as_bob 99 sample.store
     = taskController.deleteTask sample.as_bob 1 sample.store.
Proof.
  destruct (C1_denial_merged_on_update_and_delete
              sample.store sample.as_bob sample.t1 1 99 sample.body)
    as ((_ & Hu) & (_ & Hd) & _).
  - reflexivity.
  - simpl; lia.
  - reflexivity.
  - reflexivity.
  - split; assumption.
Defined.

(** C1 as stated fails on read: bob, who is no administrator, reads
    task 1 of alice and is answered 403, while on id 99, which no task
    has, bob is answered 404. *)
Lemma C1_read_tells_denial_from_absence :
  stored_task 1 sample.store = Some sample.t1
  /\ tasks.user_id sample.t1 <> req.id sample.as_bob
  /\ is_admin_role (req.role sample.as_bob) = false
  /\ stored_task 99 sample.store = None
  /\ fst (taskController.getTask sample.as_bob 1 sample.store)
     = Sent (res.failure 403 "Not authorized to access this task")
  /\ fst (taskController.getTask sample.as_bob 99 sample.store)
     = Sent (res.failure 404 "Task not found")
  /\ taskController.getTask sample.as_bob 1 sample.store
     <> taskController.getTask sample.as_bob 99 sample.store.
Proof.
  repeat split; try reflexivity; simpl; try lia.
  vm_compute. discriminate.
Qed.

(** C5. On a stored task the policy of the specification decides who is
    turned away, for each of read, update and delete and whatever the
    body: the caller is answered 403 or 404 exactly when the caller is
    neither an administrator nor the owner. Access once granted, a read, a
    delete and an update that carries all five fields are answered 200.
    An update with an absent field is not: [updateTask] binds the five
    fields as they come, the driver refuses the undefined one, and the
    owner and the administrator alike see their request end in [next]
    with the store as it was. *)
Theorem C5_access_rule_and_absent_fields
    (op : operation) (P : req.user) (id : Z) (T : tasks.row)
    (body : req.body) (s : Store) :
  stored_task id s = Some T ->
  ((task_operation_status op P id body s = Some 403%nat
    \/ task_operation_status op P id body s = Some 404%nat)
   <-> spec_canAccessTask P T op = false)
  /\ ((op = Update -> complete body = true) ->
      (task_operation_status op P id body s = Some 200%nat
       <-> spec_canAccessTask P T op = true))
  /\ (spec_canAccessTask P T Update = true ->
      complete body = false ->
      taskController.updateTask P id body s = (Next Db.bind_undefined, s)).
Proof.
  intros HT. unfold task_operation_status, spec_canAccessTask.
  refine (conj _ (conj _ _)).
  - destruct op.
    + rewrite getTask_run, HT. cbn [fst].
      destruct (is_admin_role (req.role P)), (tasks.user_id T =? req.id P);
        cbn; (split; [intros [H|H]; congruence | intros H; try congruence; auto]).
    + rewrite updateTask_run, (passes_stored _ _ _ _ _ HT).
      destruct (is_admin_role (req.role P)), (tasks.user_id T =? req.id P),
               (complete body);
        cbn; (split; [intros [H|H]; congruence | intros H; try congruence; auto]).
    + rewrite deleteTask_run, (passes_stored _ _ _ _ _ HT), HT.
      destruct (is_admin_role (req.role P)), (tasks.user_id T =? req.id P);
        cbn; (split; [intros [H|H]; congruence | intros H; try congruence; auto]).
  - intros Hbody. destruct op.
    + rewrite getTask_run, HT. cbn [fst].
      destruct (is_admin_role (req.role P)), (tasks.user_id T =? req.id P);
        cbn; split; congruence.
    + rewrite updateTask_run, (passes_stored _ _ _ _ _ HT), (Hbody eq_refl).
      destruct (is_admin_role (req.role P)), (tasks.user_id T =? req.id P);
        cbn; split; congruence.
    + rewrite deleteTask_run, (passes_stored _ _ _ _ _ HT), HT.
      destruct (is_admin_role (req.role P)), (tasks.user_id T =? req.id P);
        cbn; split; congruence.
  - intros Hcan Hbody.
    now rewrite updateTask_run, (passes_stored _ _ _ _ _ HT), Hcan, Hbody.
Qed.

Lemma C5_absent_field_witness :
  taskController.updateTask sample.as_root 1 sample.body sample.store
  = (Next Db.bind_undefined, sample.store)
  /\ task_operation_status Update sample.as_root 1 sample.full_body sample.store
     = Some 200%nat
  /\ task_operation_status Delete sample.as_bob 1 sample.body sample.store
     = Some 404%nat.
Proof.
  destruct (C5_access_rule_and_absent_fields Update sample.as_root 1 sample.t1
              sample.body sample.store eq_refl) as (_ & _ & Habsent).
  destruct (C5_access_rule_and_absent_fields Update sample.as_root 1 sample.t1
              sample.full_body sample.store eq_refl) as (_ & Hfull & _).
  destruct (C5_access_rule_and_absent_fields Delete sample.as_bob 1 sample.t1
              sample.body sample.store eq_refl) as (Hdenied & _ & _).
  refine (conj _ (conj _ _)).
  - apply Habsent; reflexivity.
  - apply Hfull; reflexivity.
  - destruct (proj2 Hdenied eq_refl) as [H|H]; [discriminate H | exact H].
Defined.

(** C10. With the administrator flag the task model makes no ownership
    or existence test. On an id no task has, and with a body that
    carries all five fields, [Task.update] runs its UPDATE on zero rows
    and returns null, so the update endpoint answers an administrator
    200 with a null task, where any other caller is answered 404 'Task
    not found or unauthorized'; [Task.delete] runs its DELETE on zero
    rows and returns false. With a field absent the UPDATE is never
    sent: the driver refuses the undefined value and the endpoint hands
    that error to [next]. *)
Theorem C10_admin_update_of_missing_task
    (admin : req.user) (id : Z) (body : req.body) (s : Store) :
  is_admin_role (req.role admin) = true ->
  stored_task id s = None ->
  Task.verify_ownership id (req.id admin) true s = (Ok tt, s)
  /\ (complete body = true ->
      Db.update_tasks (Task.assignments (updates_of body)) id s
      = (Ok (Db.mkOk 0 0), s)
      /\ Task.update id (req.id admin) (updates_of body) true s = (Ok None, s)
      /\ taskController.updateTask admin id body s
         = (Sent (res.mk 200 true (Some "Task updated successfully") (Some None)), s))
  /\ (complete body = false ->
      Task.update id (req.id admin) (updates_of body) true s
      = (Throw Db.bind_undefined, s)
      /\ taskController.updateTask admin id body s = (Next Db.bind_undefined, s))
  /\ Task.delete id (req.id admin) true s = (Ok false, s)
  /\ (forall other : req.user,
        is_admin_role (req.role other) = false ->
        taskController.updateTask other id body s
        = (Sent (res.failure 404 "Task not found or unauthorized"), s)).
Proof.
  intros Hadmin Hnone.
  refine (conj _ (conj _ (conj _ (conj _ _)))).
  - now rewrite verify_ownership_run.
  - intros Hbody.
    assert (Hupd : Db.update_tasks (Task.assignments (updates_of body)) id s
                   = (Ok (Db.mkOk 0 0), s)).
    { apply update_tasks_missing;
        [exact Hnone | now rewrite body_values_defined
         | apply task_assignments_accepted]. }
    refine (conj Hupd (conj _ _)).
    + rewrite update_granted;
        [now rewrite Hupd; cbn [snd]; rewrite Hnone | reflexivity | |].
      * rewrite update_fields_of_body; discriminate.
      * now rewrite body_values_defined.
    + rewrite updateTask_run, (passes_missing _ _ _ _ Hnone), Hadmin, Hbody.
      cbn zeta. now rewrite Hupd; cbn [snd]; rewrite Hnone.
  - intros Hbody. split.
    + apply update_unbound; [reflexivity | |].
      * rewrite update_fields_of_body; discriminate.
      * now rewrite body_values_defined.
    + now rewrite updateTask_run, (passes_missing _ _ _ _ Hnone), Hadmin, Hbody.
  - rewrite delete_granted, Hnone, delete_tasks_missing; auto.
  - intros other Hother.
    now rewrite updateTask_run, (passes_missing _ _ _ _ Hnone), Hother.
Qed.

Lemma C10_admin_update_witness :
  taskController.updateTask sample.as_root 99 sample.body sample.store
  = (Next Db.bind_undefined, sample.store)
  /\ taskController.updateTask sample.as_root 99 sample.full_body sample.store
     = (Sent (res.mk 200 true (Some "Task updated successfully") (Some None)),
        sample.store).
Proof.
  destruct (C10_admin_update_of_missing_task sample.as_root 99 sample.body
              sample.store eq_refl eq_refl) as (_ & _ & Habsent & _).
  destruct (C10_admin_update_of_missing_task sample.as_root 99 sample.full_body
              sample.store eq_refl eq_refl) as (_ & Hfull & _).
  split; [apply Habsent | apply Hfull]; reflexivity.
Defined.

(** ** Listing *)

Lemma In_insert_desc {R : Type} (key : R -> Z) (r x : R) (l : list R) :
  In x (Db.insert_desc key r l) <-> x = r \/ In x l.
Proof.
  induction l as [|y l IH]; simpl.
  - intuition congruence.
  - destruct (key y <=? key r); simpl; [intuition congruence|].
    rewrite IH. intuition congruence.
Qed.

Lemma In_order_by_desc {R : Type} (key : R -> Z) (x : R) (l : list R) :
  In x (Db.order_by_desc key l) <-> In x l.
Proof.
  unfold Db.order_by_desc.
  induction l as [|y l IH]; simpl; [tauto|].
  rewrite In_insert_desc, IH. intuition congruence.
Qed.

Lemma In_limit_offset {R : Type} (limit offset : nat) (x : R) (l : list R) :
  In x (Db.limit_offset limit offset l) -> In x l.
Proof.
  unfold Db.limit_offset. intros H.
  rewrite <- (firstn_skipn offset l). apply in_or_app; right.
  rewrite <- (firstn_skipn limit (skipn offset l)). apply in_or_app; now left.
Qed.

Lemma In_left_join (us : list users.row) (l : list tasks.row) (t : tasks.row) :
  In t l -> In t (map Db.task (flat_map (Db.left_join_users us) l)).
Proof.
  intros H. apply in_map_iff.
  destruct (left_join_users_hd us t) as (j & rest & Hj & Ht).
  exists j; split; [exact Ht|].
  apply in_flat_map. exists t; split; [exact H|]. rewrite Hj; now left.
Qed.

(** C4. For a caller who is no administrator the listing endpoint
    answers with the rows of [Task.findByUserId] for the caller's id: the
    query itself carries [WHERE user_id = ?], and every task of the page
    is a stored task owned by the caller. For an administrator it
    answers with a page of [Task.findAll] without the owner filter, cut
    out of a result set that holds every stored task matching the
    status and priority filters, whoever owns it. *)
Theorem C4_listing_scoped_in_the_query
    (P : req.user) (limit offset : option nat) (status priority : option string)
    (s : Store) :
  (is_admin_role (req.role P) = false ->
   exists rows total more,
     Task.findByUserId (req.id P) (listing_options limit offset status priority) s
     = (Ok rows, s)
     /\ taskController.getTasks P limit offset status priority s
        = (Sent (res.mk 200 true None
                   (Some (listing.mk (listing.Plain rows) total
                            (default 10%nat limit) (default 0%nat offset) more))), s)
     /\ forall t, In t rows -> tasks.user_id t = req.id P /\ In t (tasks_table s))
  /\ (is_admin_role (req.role P) = true ->
      exists total more,
        Task.findAll (listing_options limit offset status priority) s
        = (Ok (Db.limit_offset (default 10%nat limit) (default 0%nat offset)
                 (all_matching status priority s)), s)
        /\ taskController.getTasks P limit offset status priority s
           = (Sent (res.mk 200 true None
                      (Some (listing.mk
                               (listing.Joined
                                  (Db.limit_offset (default 10%nat limit)
                                     (default 0%nat offset)
                                     (all_matching status priority s)))
                               total (default 10%nat limit) (default 0%nat offset)
                               more))), s)
        /\ forall t, In t (tasks_table s) ->
                     Db.matches (Db.mkFilters status priority None) t = true ->
                     In t (map Db.task (all_matching status priority s))).
Proof.
  split; intros Hrole.
  - eexists _, _, _. split; [reflexivity|]. split.
    + unfold taskController.getTasks, handler, try_handler, bind.
      rewrite Hrole. reflexivity.
    + intros t Ht. apply In_limit_offset in Ht.
      apply In_order_by_desc in Ht. apply filter_In in Ht.
      destruct Ht as [Hin Hf]. apply andb_prop in Hf.
      split; [now apply Z.eqb_eq | exact Hin].
  - eexists _, _. split; [reflexivity|]. split.
    + unfold taskController.getTasks, handler, try_handler, bind.
      rewrite Hrole. reflexivity.
    + intros t Hin Hm. unfold all_matching.
      apply in_map_iff.
      assert (H : In t (map Db.task
                          (flat_map (Db.left_join_users (users_table s))
                             (filter (Db.matches (Db.mkFilters status priority None))
                                     (tasks_table s))))).
      { apply In_left_join. apply filter_In; now split. }
      apply in_map_iff in H. destruct H as (j & Hj & Hin').
      exists j; split; [exact Hj|]. now apply In_order_by_desc.
Qed.

Lemma C4_listing_witness :
  (forall t, In t [sample.t3; sample.t1] -> tasks.user_id t = 1)
  /\ In sample.t2 (map Db.task (all_matching None None sample.store)).
Proof.
  destruct (C4_listing_scoped_in_the_query
              sample.as_alice None None None None sample.store) as [Huser _].
  destruct (C4_listing_scoped_in_the_query
              sample.as_root None None None None sample.store) as [_ Hadmin].
  destruct (Huser eq_refl) as (rows & total & more & Hfind & _ & Hown).
  destruct (Hadmin eq_refl) as (total' & more' & _ & _ & Hall).
  split.
  - vm_compute in Hfind. injection Hfind as <-.
    intros t Ht. now apply Hown.
  - apply Hall; [simpl; tauto | reflexivity].
Defined.

(** ** Tokens *)

Lemma text_eqb_refl (a : option string) : text_eqb a a = true.
Proof. destruct a; simpl; [apply String.eqb_refl | reflexivity]. Qed.

Lemma claims_eqb_refl (c : jwt.claims) : jwt.claims_eqb c c = true.
Proof.
  unfold jwt.claims_eqb. rewrite !Z.eqb_refl.
  destruct (jwt.role (jwt.body c)) as [r|]; simpl;
    [now rewrite text_eqb_refl | reflexivity].
Qed.

(** A signature checks under the secret it was made with, and no other. *)
Lemma signature_checks (k secret : string) (c : jwt.claims) :
  jwt.signature_eqb (jwt.HS256 k c) (jwt.HS256 secret c) = (k =? secret)%string.
Proof. simpl. rewrite claims_eqb_refl. apply andb_true_r. Qed.

Lemma verify_signed (now issued lifetime : Z) (p : jwt.payload) (k secret : string) :
  jwt.verify now (jwt.sign issued p k lifetime) secret
  = if (k =? secret)%string then
      if issued + lifetime <=? now then Throw (JsError "jwt expired")
      else Ok (jwt.mkClaims p issued (issued + lifetime))
    else Throw (JsError "invalid signature").
Proof. unfold jwt.verify, jwt.sign. now rewrite signature_checks. Qed.

(** A token is accepted by the verifier of its own class until it
    expires. *)
Lemma verify_own_access_token (env : Env) (issued now : Z) (p : jwt.payload) :
  now < issued + default (days 7) (JWT_EXPIRE env) ->
  jwt.verifyAccessToken env now (jwt.generateAccessToken env issued p)
  = Ok (jwt.mkClaims p issued (issued + default (days 7) (JWT_EXPIRE env))).
Proof.
  intros H. unfold jwt.verifyAccessToken, jwt.generateAccessToken.
  rewrite verify_signed, String.eqb_refl.
  destruct (Z.leb_spec (issued + default (days 7) (JWT_EXPIRE env)) now);
    [lia | reflexivity].
Qed.

Lemma verify_own_refresh_token (env : Env) (issued now : Z) (p : jwt.payload) :
  now < issued + default (days 30) (JWT_REFRESH_EXPIRE env) ->
  jwt.verifyRefreshToken env now (jwt.generateRefreshToken env issued p)
  = Ok (jwt.mkClaims p issued (issued + default (days 30) (JWT_REFRESH_EXPIRE env))).
Proof.
  intros H. unfold jwt.verifyRefreshToken, jwt.generateRefreshToken.
  rewrite verify_signed, String.eqb_refl.
  destruct (Z.leb_spec (issued + default (days 30) (JWT_REFRESH_EXPIRE env)) now);
    [lia | reflexivity].
Qed.

(** C7. When the two secrets differ, a token made by
    [generateRefreshToken] is refused by [verifyAccessToken] with
    'Invalid or expired token', and a token made by
    [generateAccessToken] is refused by [verifyRefreshToken] with
    'Invalid or expired refresh token', at whatever time it was issued
    and is presented. *)
Theorem C7_cross_secret_rejection
    (env : Env) (issued now : Z) (p : jwt.payload) :
  JWT_SECRET env <> JWT_REFRESH_SECRET env ->
  jwt.verifyAccessToken env now (jwt.generateRefreshToken env issued p)
  = Throw (JsError "Invalid or expired token")
  /\ jwt.verifyRefreshToken env now (jwt.generateAccessToken env issued p)
     = Throw (JsError "Invalid or expired refresh token").
Proof.
  intros Hdistinct.
  unfold jwt.verifyAccessToken, jwt.verifyRefreshToken,
         jwt.generateAccessToken, jwt.generateRefreshToken.
  rewrite !verify_signed.
  assert (H1 : (JWT_REFRESH_SECRET env =? JWT_SECRET env)%string = false)
    by (apply String.eqb_neq; congruence).
  assert (H2 : (JWT_SECRET env =? JWT_REFRESH_SECRET env)%string = false)
    by (apply String.eqb_neq; congruence).
  rewrite H1, H2. split; reflexivity.
Qed.

Lemma C7_cross_secret_witness :
  jwt.verifyAccessToken sample.env 2000
    (jwt.generateRefreshToken sample.env 1000 (jwt.mkPayload 1 None))
  = Throw (JsError "Invalid or expired token")
  /\ jwt.verifyRefreshToken sample.env 2000
       (jwt.generateAccessToken sample.env 1000 (jwt.mkPayload 1 None))
     = Throw (JsError "Invalid or expired refresh token").
Proof.
  apply (C7_cross_secret_rejection sample.env 1000 2000 (jwt.mkPayload 1 None)).
  simpl. discriminate.
Defined.

(** ** Running the user model *)

Lemma hd_error_filter {A : Type} (p : A -> bool) (l : list A) :
  hd_error (filter p l) = find p l.
Proof.
  induction l as [|a l IH]; simpl; [reflexivity|].
  destruct (p a); [reflexivity | exact IH].
Qed.

Lemma existsb_find {A : Type} (p : A -> bool) (l : list A) :
  existsb p l = match find p l with Some _ => true | None => false end.
Proof.
  induction l as [|a l IH]; simpl; [reflexivity|].
  destruct (p a); [reflexivity | exact IH].
Qed.

Lemma User_findById_run (id : Z) (s : Store) :
  User.findById id s = (Ok (option_map User.project (stored_user id s)), s).
Proof.
  unfold User.findById, bind, ret, Db.select_users_by_id, stored_user.
  now rewrite hd_error_filter.
Qed.

Lemma User_findByEmail_run (email : string) (s : Store) :
  User.findByEmail email s
  = (Ok (find (fun u => Db.sql_eq (users.email u) (Some email)) (users_table s)), s).
Proof.
  unfold User.findByEmail, bind, ret, Db.select_users_by_email.
  now rewrite hd_error_filter.
Qed.

Lemma findByEmail_taken (email : string) (s : Store) :
  Db.email_taken (Some email) s
  = match fst (User.findByEmail email s) with
    | Ok (Some _) => true
    | _ => false
    end.
Proof.
  rewrite User_findByEmail_run. unfold Db.email_taken. cbn [fst].
  apply existsb_find.
Qed.

Lemma User_create_run (bcrypt : Bcrypt) (env : Env)
    (username email password : string) (role : option string) (s : Store) :
  User.create bcrypt env username email password role s
  = if Db.username_taken (Some username) s then
      (Throw (Db.dup_entry (Some username) "users.username"), s)
    else if Db.email_taken (Some email) s then
      (Throw (Db.dup_entry (Some email) "users.email"), s)
    else
      (Ok (User.project (registered bcrypt env username email password role s)),
       after_register bcrypt env username email password role s).
Proof.
  unfold User.create, bind, Db.insert_user, ret.
  destruct (Db.username_taken (Some username) s); [reflexivity|].
  destruct (Db.email_taken (Some email) s); reflexivity.
Qed.

(** The registration endpoint, run: 400 on an address already in use;
    the store's refusal handed to [next] on a name already in use; 201
    with the new user and a pair of tokens otherwise. *)
Lemma register_run (bcrypt : Bcrypt) (env : Env) (now : Z)
    (username email password : string) (role : option string) (s : Store) :
  authController.register bcrypt env now username email password role s
  = if Db.email_taken (Some email) s then
      (Sent (res.failure 400 "User with this email already exists"), s)
    else if Db.username_taken (Some username) s then
      (Next (Db.dup_entry (Some username) "users.username"), s)
    else
      let u := registered bcrypt env username email password role s in
      (Sent (res.mk 201 true (Some "User registered successfully")
               (Some (auth.mk
                        (User.project u)
                        (jwt.generateAccessToken env now
                           (jwt.mkPayload (users.id u) (Some (users.role u))))
                        (jwt.generateRefreshToken env now
                           (jwt.mkPayload (users.id u) None))))),
       after_register bcrypt env username email password role s).
Proof.
  unfold authController.register, handler, try_handler.
  unfold bind at 1. rewrite User_findByEmail_run.
  unfold Db.email_taken at 1. rewrite existsb_find.
  destruct (find _ (users_table s)) as [found|] eqn:Hfound; [reflexivity|].
  assert (Hfree : Db.email_taken (Some email) s = false).
  { unfold Db.email_taken. now rewrite existsb_find, Hfound. }
  unfold bind. rewrite User_create_run, Hfree.
  destruct (Db.username_taken (Some username) s); reflexivity.
Qed.

(** ** Registration *)

(** C2. The registration endpoint takes no principal and hands the
    [role] of the body to [User.create] as it is. When the name and the
    address are free, the request is answered 201, the row added to
    [users] has the requested role, and the access token issued embeds
    it. With [role = 'admin'] the new user is an administrator, on any
    store, one without administrators included. *)
Theorem C2_register_grants_requested_role
    (bcrypt : Bcrypt) (env : Env) (now : Z)
    (username email password role : string) (s : Store) :
  Db.email_taken (Some email) s = false ->
  Db.username_taken (Some username) s = false ->
  let u := registered bcrypt env username email password (Some role) s in
  let s' := after_register bcrypt env username email password (Some role) s in
  exists d,
    authController.register bcrypt env now username email password (Some role) s
    = (Sent (res.mk 201 true (Some "User registered successfully") (Some d)), s')
    /\ users_table s' = (users_table s ++ [u])%list
    /\ users.role u = Some role
    /\ User.role (auth.user d) = Some role
    /\ auth.accessToken d
       = jwt.generateAccessToken env now (jwt.mkPayload (users.id u) (Some (Some role)))
    /\ claimed_role (auth.accessToken d) = Some (Some role).
Proof.
  intros Hemail Hname u s'.
  rewrite register_run, Hemail, Hname.
  eexists; split; [reflexivity|].
  repeat split.
Qed.

Lemma C2_register_admin_witness :
  exists d,
    fst (authController.register sample.bcrypt sample.env 1000
           "mallory" "mallory@x.com" "Passw0rd1" (Some "admin") sample.empty)
    = Sent (res.mk 201 true (Some "User registered successfully") (Some d))
    /\ claimed_role (auth.accessToken d) = Some (Some "admin")
    /\ map users.role
         (users_table
            (snd (authController.register sample.bcrypt sample.env 1000
                    "mallory" "mallory@x.com" "Passw0rd1" (Some "admin")
                    sample.empty)))
       = [Some "admin"].
Proof.
  destruct (C2_register_grants_requested_role sample.bcrypt sample.env 1000
              "mallory" "mallory@x.com" "Passw0rd1" "admin" sample.empty
              eq_refl eq_refl)
    as (d & Hrun & Htable & _ & _ & _ & Hclaim).
  exists d. rewrite Hrun. cbn [fst snd]. rewrite Htable.
  repeat split. exact Hclaim.
Defined.

(** C3. A registration whose name or address is already in use adds no
    row to [users] and is answered 400: by the endpoint itself for the
    address, and for the name by the UNIQUE key of the store, whose
    refusal the endpoint hands to the error middleware. It is answered
    201 only when both are free. *)
Theorem C3_duplicate_identity_refused
    (bcrypt : Bcrypt) (env : Env) (now : Z)
    (username email password : string) (role : option string) (s : Store) :
  let run := authController.register bcrypt env now username email password role in
  (Db.username_taken (Some username) s = true
   \/ Db.email_taken (Some email) s = true ->
   res.status (fst (mounted run s)) = 400%nat
   /\ res.success (fst (mounted run s)) = false
   /\ snd (mounted run s) = s)
  /\ (Db.email_taken (Some email) s = true ->
      fst (run s) = Sent (res.failure 400 "User with this email already exists"))
  /\ (Db.email_taken (Some email) s = false ->
      Db.username_taken (Some username) s = true ->
      fst (run s) = Next (Db.dup_entry (Some username) "users.username"))
  /\ (res.status (fst (mounted run s)) = 201%nat ->
      Db.username_taken (Some username) s = false
      /\ Db.email_taken (Some email) s = false).
Proof.
  intros run. subst run. unfold mounted. rewrite register_run.
  destruct (Db.email_taken (Some email) s) eqn:He;
    destruct (Db.username_taken (Some username) s) eqn:Hu; cbn.
  all: refine (conj _ (conj _ (conj _ _))); intros H; try intros H'.
  all: try discriminate; try (destruct H; discriminate); auto.
Qed.

Lemma C3_duplicate_identity_witness :
  res.status
    (fst (mounted (authController.register sample.bcrypt sample.env 1000
                     "alice" "fresh@x.com" "Passw0rd1" None) sample.store))
  = 400%nat
  /\ res.status
       (fst (mounted (authController.register sample.bcrypt sample.env 1000
                        "fresh" "bob@x.com" "Passw0rd1" None) sample.store))
     = 400%nat.
Proof.
  split.
  - apply (C3_duplicate_identity_refused sample.bcrypt sample.env 1000
             "alice" "fresh@x.com" "Passw0rd1" None sample.store).
    left; reflexivity.
  - apply (C3_duplicate_identity_refused sample.bcrypt sample.env 1000
             "fresh" "bob@x.com" "Passw0rd1" None sample.store).
    right; reflexivity.
Defined.

(** ** Refresh *)

(** The refresh endpoint on a token its verifier accepts. *)
Lemma refreshToken_run (env : Env) (now : Z) (token : jwt.token)
    (c : jwt.claims) (s : Store) :
  jwt.verifyRefreshToken env now token = Ok c ->
  authController.refreshToken env now (Some token) s
  = (match stored_user (jwt.id (jwt.body c)) s with
     | None => Sent (res.failure 401 "User not found")
     | Some u =>
         Sent (res.mk 200 true (Some "Token refreshed successfully")
                 (Some (jwt.generateAccessToken env now
                          (jwt.mkPayload (users.id u) (Some (users.role u))))))
     end, s).
Proof.
  intros Hc.
  unfold authController.refreshToken, handler, try_handler, bind, lift.
  rewrite Hc, User_findById_run.
  destruct (stored_user (jwt.id (jwt.body c)) s); reflexivity.
Qed.

Lemma refreshToken_refused (env : Env) (now : Z) (token : jwt.token) (s : Store) :
  (forall c, jwt.verifyRefreshToken env now token <> Ok c) ->
  authController.refreshToken env now (Some token) s
  = (Next (JsError "Invalid or expired refresh token"), s).
Proof.
  intros Hno.
  unfold authController.refreshToken, handler, try_handler, bind, lift.
  destruct (jwt.verifyRefreshToken env now token) as [c|e] eqn:Hv.
  - now destruct (Hno c).
  - unfold jwt.verifyRefreshToken in Hv.
    destruct (jwt.verify now token (JWT_REFRESH_SECRET env));
      [discriminate | now injection Hv as <-].
Qed.

Lemma login_tokens (bcrypt : Bcrypt) (env : Env) (now : Z)
    (email password : string) (s s' : Store) (r : res.t auth.data) (d : auth.data) :
  authController.login bcrypt env now email password s = (Sent r, s') ->
  res.data r = Some d ->
  auth.refreshToken d
  = jwt.generateRefreshToken env now (jwt.mkPayload (User.id (auth.user d)) None)
  /\ auth.accessToken d
     = jwt.generateAccessToken env now
         (jwt.mkPayload (User.id (auth.user d)) (Some (User.role (auth.user d)))).
Proof.
  unfold authController.login, handler, try_handler, bind.
  rewrite User_findByEmail_run.
  destruct (find _ (users_table s)) as [u|].
  - unfold authController.verifyPassword.
    destruct (users.password u) as [h|]; cbn; [|discriminate].
    destruct (User.verifyPassword bcrypt password h); cbn;
      intros H; injection H as <- <-; cbn; intros Hd;
      [injection Hd as <-; split; reflexivity | discriminate].
  - cbn. intros H; injection H as <- <-; cbn; discriminate.
Qed.

Lemma register_tokens (bcrypt : Bcrypt) (env : Env) (now : Z)
    (username email password : string) (role : option string)
    (s s' : Store) (r : res.t auth.data) (d : auth.data) :
  authController.register bcrypt env now username email password role s
  = (Sent r, s') ->
  res.data r = Some d ->
  auth.refreshToken d
  = jwt.generateRefreshToken env now (jwt.mkPayload (User.id (auth.user d)) None)
  /\ auth.accessToken d
     = jwt.generateAccessToken env now
         (jwt.mkPayload (User.id (auth.user d)) (Some (User.role (auth.user d)))).
Proof.
  rewrite register_run.
  destruct (Db.email_taken (Some email) s).
  - intros H; injection H as <- <-; cbn; discriminate.
  - destruct (Db.username_taken (Some username) s); [discriminate|].
    cbn zeta. intros H; injection H as <- <-. cbn.
    intros Hd; injection Hd as <-. split; reflexivity.
Qed.

(** C6. The refresh tokens issued at registration and at login are
    signed over the subject id alone: they carry no role claim. At a
    refresh the endpoint answers 200 only with an access token whose
    role is the one of the row the store holds for the subject at that
    time; and it does so for any accepted refresh token, whatever role
    claim the token may carry. *)
Theorem C6_refresh_reads_role_from_store
    (bcrypt : Bcrypt) (env : Env) (now : Z) (s : Store) :
  (forall username email password role s' r d,
      authController.register bcrypt env now username email password role s
      = (Sent r, s') ->
      res.data r = Some d ->
      auth.refreshToken d
      = jwt.generateRefreshToken env now (jwt.mkPayload (User.id (auth.user d)) None)
      /\ claimed_role (auth.refreshToken d) = None)
  /\ (forall email password s' r d,
         authController.login bcrypt env now email password s = (Sent r, s') ->
         res.data r = Some d ->
         auth.refreshToken d
         = jwt.generateRefreshToken env now (jwt.mkPayload (User.id (auth.user d)) None)
         /\ claimed_role (auth.refreshToken d) = None)
  /\ (forall token s' r access,
         authController.refreshToken env now (Some token) s = (Sent r, s') ->
         res.data r = Some access ->
         exists c u,
           jwt.verifyRefreshToken env now token = Ok c
           /\ stored_user (jwt.id (jwt.body c)) s = Some u
           /\ access = jwt.generateAccessToken env now
                         (jwt.mkPayload (users.id u) (Some (users.role u)))
           /\ claimed_role access = Some (users.role u))
  /\ (forall c u,
         now < jwt.exp c ->
         stored_user (jwt.id (jwt.body c)) s = Some u ->
         authController.refreshToken env now
           (Some (jwt.Jws c (jwt.HS256 (JWT_REFRESH_SECRET env) c))) s
         = (Sent (res.mk 200 true (Some "Token refreshed successfully")
                    (Some (jwt.generateAccessToken env now
                             (jwt.mkPayload (users.id u) (Some (users.role u)))))),
            s)).
Proof.
  refine (conj _ (conj _ (conj _ _))).
  - intros username email password role s' r d Hrun Hd.
    destruct (register_tokens _ _ _ _ _ _ _ _ _ _ _ Hrun Hd) as [-> _].
    split; reflexivity.
  - intros email password s' r d Hrun Hd.
    destruct (login_tokens _ _ _ _ _ _ _ _ _ Hrun Hd) as [-> _].
    split; reflexivity.
  - intros token s' r access Hrun Hd.
    destruct (jwt.verifyRefreshToken env now token) as [c|e] eqn:Hv.
    + rewrite (refreshToken_run _ _ _ _ _ Hv) in Hrun.
      destruct (stored_user (jwt.id (jwt.body c)) s) as [u|] eqn:Hu;
        injection Hrun as <- <-; cbn in Hd; [|discriminate].
      injection Hd as <-. exists c, u. repeat split; assumption.
    + rewrite refreshToken_refused in Hrun; [discriminate|].
      intros c; rewrite Hv; discriminate.
  - intros c u Hfresh Hu.
    rewrite (refreshToken_run env now _ c).
    + now rewrite Hu.
    + unfold jwt.verifyRefreshToken, jwt.verify.
      rewrite signature_checks, String.eqb_refl.
      destruct (Z.leb_spec (jwt.exp c) now); [lia | reflexivity].
Qed.

Lemma C6_refresh_witness :
  let stale := jwt.mkClaims (jwt.mkPayload 1 (Some (Some "admin"))) 1000 5000 in
  authController.refreshToken sample.env 2000
    (Some (jwt.Jws stale (jwt.HS256 "refresh-secret" stale))) sample.store
  = (Sent (res.mk 200 true (Some "Token refreshed successfully")
             (Some (jwt.generateAccessToken sample.env 2000
                      (jwt.mkPayload 1 (Some (Some "user")))))),
     sample.store).
Proof.
  intros stale.
  apply (proj2 (proj2 (proj2
           (C6_refresh_reads_role_from_store sample.bcrypt sample.env 2000
              sample.store))) stale sample.alice).
  - simpl. lia.
  - reflexivity.
Defined.

(** ** Updating and deleting users *)

Lemma user_allowed_is_column (k : string) :
  mem k User.allowedFields = true -> mem k Db.users_text_columns = true.
Proof.
  unfold mem, User.allowedFields, Db.users_text_columns. cbn [existsb].
  destruct (k =? "username")%string, (k =? "email")%string,
           (k =? "role")%string, (k =? "password")%string; auto.
Qed.

Lemma user_assignments_accepted (updates : object) :
  find (fun a => negb (mem (fst a) Db.users_text_columns)) (User.assignments updates)
  = None.
Proof.
  apply allowed_assignments_accepted. exact user_allowed_is_column.
Qed.

(** What the model assigns comes from the allow-list, with the value
    the caller gave it. *)
Lemma user_assignments_allowed (updates : object) (column : string)
    (value : option string) :
  In (column, value) (User.assignments updates) ->
  mem column User.allowedFields = true
  /\ In column (keys updates)
  /\ value = get updates column.
Proof.
  unfold User.assignments. intros H.
  apply in_map_iff in H. destruct H as (k & Hk & Hin).
  injection Hk as -> <-.
  apply filter_In in Hin. destruct Hin as [Hin Hmem]. auto.
Qed.

Lemma assign_user_keeps (u : users.row) (column : string) (value : option string) :
  mem column User.allowedFields = true ->
  users.id (Db.assign_user u (column, value)) = users.id u
  /\ users.password (Db.assign_user u (column, value)) = users.password u.
Proof.
  intros Hmem. unfold Db.assign_user.
  destruct (column =? "username")%string; [split; reflexivity|].
  destruct (column =? "email")%string; [split; reflexivity|].
  destruct (column =? "password")%string eqn:Hp.
  - apply String.eqb_eq in Hp. subst column. discriminate Hmem.
  - destruct (column =? "role")%string; split; reflexivity.
Qed.

Lemma fold_assign_user_keeps (set : list (string * option string)) (u : users.row) :
  (forall a, In a set -> mem (fst a) User.allowedFields = true) ->
  users.id (fold_left Db.assign_user set u) = users.id u
  /\ users.password (fold_left Db.assign_user set u) = users.password u.
Proof.
  revert u. induction set as [|[column value] set IH]; intros u Hall; cbn [fold_left].
  - split; reflexivity.
  - destruct (IH (Db.assign_user u (column, value))) as [Hid Hpw].
    { intros a Ha. apply Hall. now right. }
    destruct (assign_user_keeps u column value) as [Hid' Hpw'].
    { apply (Hall (column, value)). now left. }
    split; congruence.
Qed.

(** An UPDATE whose assignments come from the allow-list writes neither
    an id nor a password, and no row of [tasks]. *)
Lemma update_users_keeps (set : list (string * option string)) (id : Z) (s : Store) :
  (forall a, In a set -> mem (fst a) User.allowedFields = true) ->
  let s' := snd (Db.update_users set id s) in
  map users.id (users_table s') = map users.id (users_table s)
  /\ map users.password (users_table s') = map users.password (users_table s)
  /\ tasks_table s' = tasks_table s.
Proof.
  intros Hall. unfold Db.update_users.
  destruct (negb (Db.defined (map snd set))); [cbn; auto|].
  destruct (find (fun a => negb (mem (fst a) Db.users_text_columns)) set);
    [cbn; auto|].
  destruct (find _ (map _ (users_table s))) as [clash|];
    [destruct (Db.username_clash _ clash); cbn; auto|].
  cbn [snd users_table tasks_table].
  rewrite !map_map. repeat split; apply map_ext; intros u;
    destruct (users.id u =? id); try reflexivity;
    apply (fold_assign_user_keeps set u Hall).
Qed.

(** C9. [User.update] assigns only columns of the allow-list username,
    email, role, each with the value the caller gave it; whatever else
    [partialFields] names is dropped, so the id and the password of
    every row stay as they were. When no key of [partialFields] is in
    the allow-list it throws 'No valid fields to update' and the store
    is unchanged. *)
Theorem C9_update_restricted_to_allow_list
    (id : Z) (partialFields : object) (s : Store) :
  (forall column value,
      In (column, value) (User.assignments partialFields) ->
      In column ["username"; "email"; "role"]
      /\ In column (keys partialFields)
      /\ value = get partialFields column)
  /\ (map users.id (users_table (snd (User.update id partialFields s)))
      = map users.id (users_table s)
      /\ map users.password (users_table (snd (User.update id partialFields s)))
         = map users.password (users_table s))
  /\ ((forall key, In key (keys partialFields) ->
                   ~ In key ["username"; "email"; "role"]) ->
      User.update id partialFields s
      = (Throw (JsError "No valid fields to update"), s)).
Proof.
  assert (Hmem : forall k, mem k User.allowedFields = true
                           <-> In k ["username"; "email"; "role"]).
  { intros k. unfold mem. rewrite existsb_exists. split.
    - intros (x & Hx & He). apply String.eqb_eq in He. now subst.
    - intros Hk. exists k. split; [exact Hk | apply String.eqb_refl]. }
  refine (conj _ (conj _ _)).
  - intros column value Hin.
    destruct (user_assignments_allowed _ _ _ Hin) as (H1 & H2 & H3).
    repeat split; auto. now apply Hmem.
  - unfold User.update.
    destruct (List.length _ =? 0)%nat; [cbn; auto|].
    unfold bind.
    pose proof (update_users_keeps (User.assignments partialFields) id s) as Hk.
    destruct (Db.update_users (User.assignments partialFields) id s) as [[ok|e] s0].
    + rewrite User_findById_run. cbn [snd] in *.
      destruct Hk as (H1 & H2 & _); [|auto].
      intros a Ha. destruct a as [column value].
      now destruct (user_assignments_allowed _ _ _ Ha).
    + cbn [snd] in *.
      destruct Hk as (H1 & H2 & _); [|auto].
      intros a Ha. destruct a as [column value].
      now destruct (user_assignments_allowed _ _ _ Ha).
  - intros Hnone. unfold User.update.
    assert (Hempty : filter (fun key => mem key User.allowedFields)
                            (keys partialFields) = []).
    { induction (keys partialFields) as [|k ks IH]; [reflexivity|].
      cbn [filter].
      destruct (mem k User.allowedFields) eqn:Hk.
      - exfalso. apply (Hnone k); [now left | now apply Hmem].
      - apply IH. intros key Hkey. apply Hnone. now right. }
    now rewrite Hempty.
Qed.

Lemma C9_update_witness :
  User.update 1 [("password", Some "owned"); ("id", Some "7")] sample.store
  = (Throw (JsError "No valid fields to update"), sample.store).
Proof.
  apply (C9_update_restricted_to_allow_list 1
           [("password", Some "owned"); ("id", Some "7")] sample.store).
  intros key [<-|[<-|[]]] [H|[H|[H|[]]]]; discriminate H.
Defined.

Lemma find_filter_out {A : Type} (p : A -> bool) (l : list A) :
  find p (filter (fun a => negb (p a)) l) = None.
Proof.
  induction l as [|a l IH]; simpl; [reflexivity|].
  destruct (p a) eqn:Hp; simpl; [exact IH | now rewrite Hp].
Qed.

Lemma User_delete_run (id : Z) (s : Store) :
  User.delete id s
  = (Ok (match stored_user id s with Some _ => true | None => false end),
     snd (Db.delete_users id s)).
Proof.
  unfold User.delete, bind, Db.delete_users, ret.
  cbn [snd Db.affectedRows]. f_equal. f_equal. unfold stored_user.
  induction (users_table s) as [|u l IH]; cbn [filter find]; [reflexivity|].
  destruct (users.id u =? id); [reflexivity | exact IH].
Qed.

(** C8. The delete-user endpoint refuses the caller's own id with a 400
    and leaves the store as it is. On the id of another user whom the
    store holds it answers 200: that user's rows leave [users], and with
    them, by the cascade of the foreign key, every task the user owned;
    the rows of the other users and their tasks stay. The endpoint does
    not look at the caller's role (its router admits administrators
    only), so this holds of every caller, administrators included. *)
Theorem C8_no_self_delete_and_cascade (P : req.user) (id : Z) (s : Store) :
  (id = req.id P ->
   userController.deleteUser P id s
   = (Sent (res.failure 400 "You cannot delete your own account"), s))
  /\ (id <> req.id P ->
      (exists u, stored_user id s = Some u) ->
      let s' := snd (userController.deleteUser P id s) in
      fst (userController.deleteUser P id s)
      = Sent (res.mk 200 true (Some "User deleted successfully") None)
      /\ users_table s' = filter (fun u => negb (users.id u =? id)) (users_table s)
      /\ tasks_table s' = filter (fun t => negb (tasks.user_id t =? id)) (tasks_table s)
      /\ stored_user id s' = None
      /\ (forall t, In t (tasks_table s') -> tasks.user_id t <> id)).
Proof.
  split.
  - intros ->. unfold userController.deleteUser, handler, try_handler.
    now rewrite Z.eqb_refl.
  - intros Hother (u & Hu) s'. subst s'.
    unfold userController.deleteUser, handler, try_handler.
    apply Z.eqb_neq in Hother. rewrite Hother.
    unfold bind. rewrite User_delete_run, Hu. cbn [negb fst snd ret].
    assert (Hn : Nat.ltb 0 (List.length (filter (fun x => users.id x =? id)
                                              (users_table s))) = true).
    { unfold stored_user in Hu.
      destruct (filter (fun x => users.id x =? id) (users_table s)) eqn:Hf.
      - apply filter_none_iff in Hf. congruence.
      - reflexivity. }
    unfold Db.delete_users. cbn [snd users_table tasks_table]. rewrite Hn.
    refine (conj eq_refl (conj eq_refl (conj eq_refl (conj _ _)))).
    + unfold stored_user. cbn [users_table]. apply find_filter_out.
    + intros t Ht. apply filter_In in Ht. destruct Ht as [_ Ht].
      apply negb_true_iff in Ht. now apply Z.eqb_neq.
Qed.

Lemma C8_delete_user_witness :
  userController.deleteUser sample.as_root 3 sample.store
  = (Sent (res.failure 400 "You cannot delete your own account"), sample.store)
  /\ tasks_table (snd (userController.deleteUser sample.as_root 1 sample.store))
     = [sample.t2].
Proof.
  destruct (C8_no_self_delete_and_cascade sample.as_root 3 sample.store) as [Hself _].
  destruct (C8_no_self_delete_and_cascade sample.as_root 1 sample.store) as [_ Hother].
  split.
  - apply Hself. reflexivity.
  - destruct Hother as (_ & _ & Htasks & _).
    + simpl. lia.
    + exists sample.alice. reflexivity.
    + rewrite Htasks. reflexivity.
Defined.

(** ** The scenario of the specification *)

(** Alice's task is the only row of the store, and her listing shows it. *)
Example scenario_alice_lists_her_task :
  tasks_table sample.bob_registered
  = [tasks.mk 1 (Some "T1") (Some "first") (Some "pending") (Some "medium")
             (Some "2026-01-01") 1 1010]
  /\ fst (taskController.getTasks sample.as_alice None None None None
            sample.bob_registered)
     = Sent (res.mk 200 true None
               (Some (listing.mk
                        (listing.Plain
                           [tasks.mk 1 (Some "T1") (Some "first") (Some "pending")
                                     (Some "medium") (Some "2026-01-01") 1 1010])
                        1 10 0 false))).
Proof. split; reflexivity. Qed.

(** Bob's listing is empty, and bob's read of alice's task is refused. *)
Example scenario_bob_sees_nothing :
  fst (taskController.getTasks sample.as_bob None None None None
         sample.bob_registered)
  = Sent (res.mk 200 true None
            (Some (listing.mk (listing.Plain []) 0 10 0 false)))
  /\ fst (taskController.getTask sample.as_bob 1 sample.bob_registered)
     = Sent (res.failure 403 "Not authorized to access this task").
Proof. split; reflexivity. Qed.

(** A login right after registration returns two tokens of different
    classes: the refresh token is refused as an access token. *)
Example scenario_login_tokens :
  exists d,
    fst (authController.login sample.bcrypt sample.env 1030
           "alice@x.com" "Passw0rd1" sample.bob_registered)
    = Sent (res.mk 200 true (Some "Login successful") (Some d))
    /\ jwt.verifyAccessToken sample.env 1040 (auth.accessToken d)
       = Ok (jwt.mkClaims (jwt.mkPayload 1 (Some (Some "user"))) 1030
               (1030 + days 7))
    /\ jwt.verifyAccessToken sample.env 1040 (auth.refreshToken d)
       = Throw (JsError "Invalid or expired token").
Proof. eexists. repeat split. Qed.

(** An update that names a listed and an unlisted field writes the
    first and drops the second. *)
Example update_drops_unlisted_field :
  users_table
    (snd (User.update 1 [("role", Some "admin"); ("password", Some "owned")]
            sample.store))
  = [users.mk 1 (Some "alice") (Some "alice@x.com") (Some "$2a$Passw0rd1")
              (Some "admin");
     sample.bob; sample.root].
Proof. reflexivity. Qed.

(** * Further properties *)

(** ** Tokens: lifetime and integrity *)

(** X1. An access token is accepted by [verifyAccessToken] with exactly the
    payload it was issued for, from its issue until its lifetime has
    run out; from then on it is refused with 'Invalid or expired
    token'. The same holds of refresh tokens and their verifier. *)
Theorem token_accepted_until_expiry
    (env : Env) (issued now : Z) (p : jwt.payload) :
  jwt.verifyAccessToken env now (jwt.generateAccessToken env issued p)
  = (if issued + access_lifetime env <=? now
     then Throw (JsError "Invalid or expired token")
     else Ok (jwt.mkClaims p issued (issued + access_lifetime env)))
  /\ jwt.verifyRefreshToken env now (jwt.generateRefreshToken env issued p)
     = (if issued + refresh_lifetime env <=? now
        then Throw (JsError "Invalid or expired refresh token")
        else Ok (jwt.mkClaims p issued (issued + refresh_lifetime env))).
Proof.
  unfold jwt.verifyAccessToken, jwt.verifyRefreshToken,
         jwt.generateAccessToken, jwt.generateRefreshToken,
         access_lifetime, refresh_lifetime.
  rewrite !verify_signed, !String.eqb_refl.
  split.
  - destruct (issued + default (days 7) (JWT_EXPIRE env) <=? now); reflexivity.
  - destruct (issued + default (days 30) (JWT_REFRESH_EXPIRE env) <=? now);
      reflexivity.
Qed.

Lemma text_eqb_eq (a b : option string) : text_eqb a b = true -> a = b.
Proof.
  destruct a, b; simpl; try discriminate; [|reflexivity].
  intros H. apply String.eqb_eq in H. now subst.
Qed.

Lemma claims_eqb_eq (a b : jwt.claims) : jwt.claims_eqb a b = true -> a = b.
Proof.
  unfold jwt.claims_eqb. intros H.
  apply andb_prop in H. destruct H as [H Hexp].
  apply andb_prop in H. destruct H as [H Hiat].
  apply andb_prop in H. destruct H as [Hid Hrole].
  apply Z.eqb_eq in Hid, Hiat, Hexp.
  destruct a as [[ida rolea] iata expa], b as [[idb roleb] iatb expb].
  cbn in *. subst.
  assert (rolea = roleb).
  { destruct rolea, roleb; simpl in Hrole; try discriminate; [|reflexivity].
    now rewrite (text_eqb_eq _ _ Hrole). }
  now subst.
Qed.

(** X2. A token whose claims are not the ones its signature was made over
    is refused by both verifiers: editing the id, the role or the expiry
    of an issued token makes it useless. *)
Theorem altered_token_refused
    (env : Env) (now : Z) (signed altered : jwt.claims) (secret : string) :
  altered <> signed ->
  jwt.verifyAccessToken env now (jwt.Jws altered (jwt.HS256 secret signed))
  = Throw (JsError "Invalid or expired token")
  /\ jwt.verifyRefreshToken env now (jwt.Jws altered (jwt.HS256 secret signed))
     = Throw (JsError "Invalid or expired refresh token").
Proof.
  intros Hneq.
  assert (H : jwt.claims_eqb signed altered = false).
  { destruct (jwt.claims_eqb signed altered) eqn:E; [|reflexivity].
    apply claims_eqb_eq in E. congruence. }
  unfold jwt.verifyAccessToken, jwt.verifyRefreshToken, jwt.verify.
  cbn [jwt.signature_eqb]. rewrite H, !andb_false_r. split; reflexivity.
Qed.

Lemma altered_token_witness :
  let signed := jwt.mkClaims (jwt.mkPayload 1 (Some (Some "user"))) 1000 9000 in
  let altered := jwt.mkClaims (jwt.mkPayload 1 (Some (Some "admin"))) 1000 9000 in
  jwt.verifyAccessToken sample.env 2000
    (jwt.Jws altered (jwt.HS256 "access-secret" signed))
  = Throw (JsError "Invalid or expired token").
Proof.
  intros signed altered.
  apply (altered_token_refused sample.env 2000 signed altered "access-secret").
  discriminate.
Defined.

(** ** Login *)

(** The login endpoint, run. *)
Lemma login_run (bcrypt : Bcrypt) (env : Env) (now : Z)
    (email password : string) (s : Store) :
  authController.login bcrypt env now email password s
  = (match find (fun u => Db.sql_eq (users.email u) (Some email)) (users_table s) with
     | None => Sent (res.failure 401 "Invalid credentials")
     | Some u =>
         match users.password u with
         | None => Next (JsError "Illegal arguments: string, object")
         | Some h =>
             if bcrypt_compare bcrypt password h then
               Sent (res.mk 200 true (Some "Login successful")
                       (Some (auth.mk (User.project u)
                                (jwt.generateAccessToken env now
                                   (jwt.mkPayload (users.id u) (Some (users.role u))))
                                (jwt.generateRefreshToken env now
                                   (jwt.mkPayload (users.id u) None)))))
             else Sent (res.failure 401 "Invalid credentials")
         end
     end, s).
Proof.
  unfold authController.login, handler, try_handler, bind.
  rewrite User_findByEmail_run.
  destruct (find _ (users_table s)) as [u|]; [|reflexivity].
  unfold authController.verifyPassword, User.verifyPassword.
  destruct (users.password u) as [h|]; [|reflexivity].
  cbn. destruct (bcrypt_compare bcrypt password h); reflexivity.
Qed.

(** X3. A login with an address no user has and a login with a wrong
    password for an address a user has are answered alike: 401 'Invalid
    credentials' and nothing else, so the answer does not tell whether
    the address is registered. *)
Theorem login_failures_alike
    (bcrypt : Bcrypt) (env : Env) (now : Z)
    (unknown known password wrong hashed : string) (u : users.row) (s : Store) :
  Db.email_taken (Some unknown) s = false ->
  fst (User.findByEmail known s) = Ok (Some u) ->
  users.password u = Some hashed ->
  bcrypt_compare bcrypt wrong hashed = false ->
  authController.login bcrypt env now unknown password s
  = (Sent (res.failure 401 "Invalid credentials"), s)
  /\ authController.login bcrypt env now known wrong s
     = authController.login bcrypt env now unknown password s.
Proof.
  intros Hfree Hknown Hpw Hwrong.
  rewrite !login_run.
  unfold Db.email_taken in Hfree. rewrite existsb_find in Hfree.
  rewrite User_findByEmail_run in Hknown. cbn [fst] in Hknown.
  injection Hknown as Hknown. rewrite Hknown, Hpw, Hwrong.
  destruct (find _ (users_table s)); [discriminate|]. split; reflexivity.
Qed.

Lemma login_failures_witness :
  authController.login sample.bcrypt sample.env 1000 "alice@x.com" "guess"
    sample.store
  = authController.login sample.bcrypt sample.env 1000 "nobody@x.com" "guess"
      sample.store.
Proof.
  apply (login_failures_alike sample.bcrypt sample.env 1000
           "nobody@x.com" "alice@x.com" "guess" "guess" "$2a$Passw0rd1"
           sample.alice sample.store); reflexivity.
Defined.

Lemma find_app_new {A : Type} (p : A -> bool) (l : list A) (a : A) :
  existsb p l = false -> p a = true -> find p (l ++ [a]) = Some a.
Proof.
  induction l as [|x l IH]; simpl; intros Hl Ha; [now rewrite Ha|].
  destruct (p x); [discriminate | now apply IH].
Qed.

(** X4. Registration and login fit together: once a registration has been
    answered 201, a login with the same address and password is answered
    200 for the user just created, with an access token that
    [verifyAccessToken] accepts and that names this user and the role
    the registration stored. The hashing library is taken to accept the
    password a hash was made of, and the access lifetime to be
    positive. *)
Theorem register_then_login
    (bcrypt : Bcrypt) (env : Env) (t0 t1 : Z)
    (username email password : string) (role : option string) (s : Store) :
  bcrypt_sound bcrypt ->
  0 < access_lifetime env ->
  Db.email_taken (Some email) s = false ->
  Db.username_taken (Some username) s = false ->
  let s' := snd (authController.register bcrypt env t0 username email password role s) in
  let u := registered bcrypt env username email password role s in
  exists d,
    authController.login bcrypt env t1 email password s'
    = (Sent (res.mk 200 true (Some "Login successful") (Some d)), s')
    /\ auth.user d
       = User.mkProfile (users.id u) (Some username) (Some email)
                        (Some (default "user" role))
    /\ jwt.verifyAccessToken env t1 (auth.accessToken d)
       = Ok (jwt.mkClaims
               (jwt.mkPayload (users.id u) (Some (Some (default "user" role))))
               t1 (t1 + access_lifetime env)).
Proof.
  intros Hsound Hlife Hemail Hname s' u. subst s'.
  rewrite register_run, Hemail, Hname. cbn [snd].
  rewrite login_run. unfold after_register. cbn [users_table].
  rewrite (find_app_new _ _ (registered bcrypt env username email password role s));
    [ | exact Hemail | cbn; apply String.eqb_refl ].
  cbn [registered users.password]. rewrite Hsound.
  eexists. split; [reflexivity|]. split; [reflexivity|].
  cbn [auth.accessToken].
  unfold access_lifetime in *.
  rewrite verify_own_access_token by lia. reflexivity.
Qed.

Lemma register_then_login_witness :
  exists d,
    fst (authController.login sample.bcrypt sample.env 1030
           "alice@x.com" "Passw0rd1" sample.alice_registered)
    = Sent (res.mk 200 true (Some "Login successful") (Some d))
    /\ User.id (auth.user d) = 1.
Proof.
  destruct (register_then_login sample.bcrypt sample.env 1000 1030
              "alice" "alice@x.com" "Passw0rd1" None sample.empty)
    as (d & Hrun & Huser & _).
  - intros plain rounds. apply String.eqb_refl.
  - reflexivity.
  - reflexivity.
  - reflexivity.
  - exists d. unfold sample.alice_registered. rewrite Hrun, Huser.
    split; reflexivity.
Defined.

(** ** Refresh and the deletion of users *)

(** X5. The refresh endpoint never writes to the store, and its failures
    are three: 400 when the body has no token, the error 'Invalid or
    expired refresh token' handed to [next] when the token does not
    verify, 401 'User not found' when it verifies but the store holds
    no user under its subject. *)
Theorem refresh_failures
    (env : Env) (now : Z) (body : option jwt.token) (s : Store) :
  snd (authController.refreshToken env now body s) = s
  /\ (body = None ->
      fst (authController.refreshToken env now body s)
      = Sent (res.failure 400 "Refresh token is required"))
  /\ (forall token,
         body = Some token ->
         (forall c, jwt.verifyRefreshToken env now token <> Ok c) ->
         fst (authController.refreshToken env now body s)
         = Next (JsError "Invalid or expired refresh token"))
  /\ (forall token c,
         body = Some token ->
         jwt.verifyRefreshToken env now token = Ok c ->
         stored_user (jwt.id (jwt.body c)) s = None ->
         fst (authController.refreshToken env now body s)
         = Sent (res.failure 401 "User not found")).
Proof.
  refine (conj _ (conj _ (conj _ _))).
  - destruct body as [token|]; [|reflexivity].
    destruct (jwt.verifyRefreshToken env now token) as [c|e] eqn:Hv.
    + rewrite (refreshToken_run _ _ _ _ _ Hv).
      destruct (stored_user _ s); reflexivity.
    + rewrite refreshToken_refused; [reflexivity|].
      intros c; rewrite Hv; discriminate.
  - intros ->. reflexivity.
  - intros token -> Hno. now rewrite refreshToken_refused.
  - intros token c -> Hv Hnone.
    now rewrite (refreshToken_run _ _ _ _ _ Hv), Hnone.
Qed.

Lemma refresh_failures_witness :
  fst (authController.refreshToken sample.env 2000
         (Some (jwt.generateAccessToken sample.env 1000 (jwt.mkPayload 1 None)))
         sample.store)
  = Next (JsError "Invalid or expired refresh token")
  /\ fst (authController.refreshToken sample.env 2000
            (Some (jwt.generateRefreshToken sample.env 1000 (jwt.mkPayload 9 None)))
            sample.store)
     = Sent (res.failure 401 "User not found").
Proof.
  pose proof (refresh_failures sample.env 2000
                (Some (jwt.generateAccessToken sample.env 1000 (jwt.mkPayload 1 None)))
                sample.store) as (_ & _ & Hbad & _).
  pose proof (refresh_failures sample.env 2000
                (Some (jwt.generateRefreshToken sample.env 1000 (jwt.mkPayload 9 None)))
                sample.store) as (_ & _ & _ & Hgone).
  split.
  - apply (Hbad _ eq_refl). intros c. discriminate.
  - apply (Hgone _ (jwt.mkClaims (jwt.mkPayload 9 None) 1000 (1000 + days 30))
                 eq_refl); reflexivity.
Defined.

Lemma delete_users_missing (id : Z) (s : Store) :
  stored_user id s = None -> Db.delete_users id s = (Ok (Db.mkOk 0 0), s).
Proof.
  intros Hnone. unfold Db.delete_users. unfold stored_user in Hnone.
  rewrite (filter_untouched _ _ Hnone).
  apply filter_none_iff in Hnone. rewrite Hnone. cbn.
  now rewrite store_eta.
Qed.

(** The delete-user endpoint, run. *)
Lemma deleteUser_run (P : req.user) (id : Z) (s : Store) :
  userController.deleteUser P id s
  = if id =? req.id P then
      (Sent (res.failure 400 "You cannot delete your own account"), s)
    else
      match stored_user id s with
      | Some _ =>
          (Sent (res.mk 200 true (Some "User deleted successfully") None),
           snd (Db.delete_users id s))
      | None => (Sent (res.failure 404 "User not found"), s)
      end.
Proof.
  unfold userController.deleteUser, handler, try_handler.
  destruct (id =? req.id P); [reflexivity|].
  unfold bind. rewrite User_delete_run.
  destruct (stored_user id s) eqn:Hu; [reflexivity|].
  now rewrite (delete_users_missing _ _ Hu).
Qed.

Lemma stored_user_deleted (id : Z) (s : Store) :
  stored_user id (snd (Db.delete_users id s)) = None.
Proof.
  unfold stored_user, Db.delete_users. cbn [snd users_table].
  apply find_filter_out.
Qed.

(** X6. Deleting a user the store does not hold is answered 404 'User not
    found' and changes nothing. Once a user has been deleted, the user
    endpoint answers 404 for the id, a second deletion is answered 404,
    and a refresh token of the deleted user, though it still verifies,
    is answered 401 'User not found'. *)
Theorem deleted_user_is_gone
    (env : Env) (now : Z) (P : req.user) (id : Z) (s : Store) :
  id <> req.id P ->
  (stored_user id s = None ->
   userController.deleteUser P id s = (Sent (res.failure 404 "User not found"), s))
  /\ (let s' := snd (userController.deleteUser P id s) in
      fst (userController.getUser id s') = Sent (res.failure 404 "User not found")
      /\ userController.deleteUser P id s'
         = (Sent (res.failure 404 "User not found"), s')
      /\ forall token c,
           jwt.verifyRefreshToken env now token = Ok c ->
           jwt.id (jwt.body c) = id ->
           authController.refreshToken env now (Some token) s'
           = (Sent (res.failure 401 "User not found"), s')).
Proof.
  intros Hother. apply Z.eqb_neq in Hother.
  assert (Hgone : stored_user id (snd (userController.deleteUser P id s)) = None).
  { rewrite deleteUser_run, Hother.
    destruct (stored_user id s) eqn:Hu; cbn [snd];
      [apply stored_user_deleted | exact Hu]. }
  split.
  - intros Hnone. now rewrite deleteUser_run, Hother, Hnone.
  - cbn zeta. refine (conj _ (conj _ _)).
    + unfold userController.getUser, handler, try_handler, bind.
      now rewrite User_findById_run, Hgone.
    + now rewrite (deleteUser_run P id (snd _)), Hother, Hgone.
    + intros token c Hv Hid.
      rewrite (refreshToken_run _ _ _ _ _ Hv), Hid. now rewrite Hgone.
Qed.

Lemma deleted_user_witness :
  let s' := snd (userController.deleteUser sample.as_root 1 sample.store) in
  authController.refreshToken sample.env 2000
    (Some (jwt.generateRefreshToken sample.env 1000 (jwt.mkPayload 1 None))) s'
  = (Sent (res.failure 401 "User not found"), s').
Proof.
  intros s'.
  destruct (deleted_user_is_gone sample.env 2000 sample.as_root 1 sample.store)
    as (_ & _ & _ & Hrefresh).
  - simpl. lia.
  - apply (Hrefresh _ (jwt.mkClaims (jwt.mkPayload 1 None) 1000 (1000 + days 30)));
      reflexivity.
Defined.

(** ** Creating, updating and deleting tasks *)

Lemma max_id_above {R : Type} (id : R -> Z) (rows : list R) (r : R) :
  In r rows -> id r <= Db.max_id id rows.
Proof.
  unfold Db.max_id. induction rows as [|x rows IH]; simpl; [tauto|].
  intros [->|H]; [lia|]. specialize (IH H). lia.
Qed.

(** The id AUTO_INCREMENT hands out is held by no row of the table. *)
Lemma fresh_id_unused {R : Type} (id : R -> Z) (counter : Z) (rows : list R) :
  existsb (fun r => id r =? Db.fresh_id id counter rows) rows = false.
Proof.
  destruct (existsb _ rows) eqn:E; [|reflexivity].
  apply existsb_exists in E. destruct E as (r & Hin & Heq).
  apply Z.eqb_eq in Heq. pose proof (max_id_above id rows r Hin).
  unfold Db.fresh_id in Heq. lia.
Qed.

(** The creation endpoint, run: the insertion is refused by the driver
    when the title, the description or the due date is absent, and by
    the foreign key when the store holds no user under the caller's
    id. *)
Lemma createTask_run (now : Z) (user : req.user) (body : req.body) (s : Store) :
  taskController.createTask now user body s
  = if bindable body then
      if existsb (fun u => users.id u =? req.id user) (users_table s) then
        let t := created now user body s in
        (Sent (res.mk 201 true (Some "Task created successfully")
                 (Some (Some (first_join (users_table s) t)))),
         mkStore (users_table s) (users_auto_increment s)
                 (tasks_table s ++ [t]) (tasks.id t + 1))
      else (Next Db.no_referenced_row, s)
    else (Next Db.bind_undefined, s).
Proof.
  unfold taskController.createTask, handler, try_handler, bind at 1.
  unfold Task.create, bind at 1, Db.insert_task.
  replace (Db.defined [req.title body; req.description body;
                       Some (default "pending" (req.status body));
                       Some (default "medium" (req.priority body));
                       req.due_date body])
    with (bindable body) by reflexivity.
  destruct (bindable body); [|reflexivity]. cbn [negb].
  destruct (existsb _ (users_table s)); [|reflexivity].
  cbn [Db.insertId]. rewrite findById_run.
  unfold stored_task. cbn [tasks_table users_table].
  fold (created now user body s).
  rewrite (find_app_new _ _ (created now user body s));
    [reflexivity | apply fresh_id_unused | apply Z.eqb_refl].
Qed.

(** X7. A task is created for the caller and for nobody else. When the
    body carries a title, a description and a due date, the new row is
    appended with the caller's id as its owner, with status 'pending'
    and priority 'medium' unless the body says otherwise, and no other
    row changes; the caller then reads it back under the id the
    response gave; and when the store holds no user under the caller's id,
    nothing is created and the refusal of the foreign key goes to
    [next]. When the title, the description or the due date is absent,
    nothing is created either: the driver refuses the undefined value
    and that error goes to [next]. *)
Theorem createTask_owned_by_caller
    (now : Z) (user : req.user) (body : req.body) (s : Store) :
  let t := created now user body s in
  let s' := snd (taskController.createTask now user body s) in
  (bindable body = true ->
   stored_user (req.id user) s <> None ->
   fst (taskController.createTask now user body s)
   = Sent (res.mk 201 true (Some "Task created successfully")
             (Some (Some (first_join (users_table s) t))))
   /\ tasks_table s' = (tasks_table s ++ [t])%list
   /\ users_table s' = users_table s
   /\ tasks.user_id t = req.id user
   /\ stored_task (tasks.id t) s = None
   /\ fst (taskController.getTask user (tasks.id t) s')
      = Sent (res.mk 200 true None (Some (first_join (users_table s) t))))
  /\ (bindable body = true ->
      stored_user (req.id user) s = None ->
      taskController.createTask now user body s = (Next Db.no_referenced_row, s))
  /\ (bindable body = false ->
      taskController.createTask now user body s = (Next Db.bind_undefined, s)).
Proof.
  intros t s'. subst s'. rewrite createTask_run.
  unfold stored_user. rewrite existsb_find.
  destruct (bindable body);
    [|refine (conj _ (conj _ _)); [discriminate | discriminate | reflexivity]].
  destruct (find _ (users_table s)) as [u|] eqn:Hu.
  - refine (conj _ (conj _ _)); [intros _ _ | discriminate | discriminate].
    cbn [fst snd tasks_table users_table].
    assert (Hfresh : existsb (fun r => tasks.id r =? tasks.id t) (tasks_table s)
                     = false) by apply fresh_id_unused.
    refine (conj eq_refl (conj eq_refl (conj eq_refl (conj eq_refl (conj _ _))))).
    + unfold stored_task. rewrite existsb_find in Hfresh.
      now destruct (find _ (tasks_table s)).
    + rewrite getTask_run. unfold stored_task. cbn [fst tasks_table users_table].
      rewrite (find_app_new _ _ t); [ | exact Hfresh | apply Z.eqb_refl ].
      subst t. cbn [created tasks.user_id]. now rewrite Z.eqb_refl.
  - refine (conj _ (conj _ _));
      [intros _ H; now destruct H | reflexivity | discriminate].
Qed.

Lemma createTask_witness :
  tasks_table sample.task_created
  = [tasks.mk 1 (Some "T1") (Some "first") (Some "pending") (Some "medium")
              (Some "2026-01-01") 1 1010]
  /\ taskController.createTask 1010 sample.as_alice
       (req.mkBody (Some "T1") None None None None) sample.alice_registered
     = (Next Db.bind_undefined, sample.alice_registered).
Proof.
  destruct (createTask_owned_by_caller 1010 sample.as_alice
              (req.mkBody (Some "T1") (Some "first") None None (Some "2026-01-01"))
              sample.alice_registered) as (Hok & _ & _).
  destruct (createTask_owned_by_caller 1010 sample.as_alice
              (req.mkBody (Some "T1") None None None None)
              sample.alice_registered) as (_ & _ & Habsent).
  split.
  - destruct Hok as (_ & Htable & _); [reflexivity | discriminate |].
    unfold sample.task_created. rewrite Htable. reflexivity.
  - apply Habsent. reflexivity.
Defined.

Lemma assign_task_keeps (t : tasks.row) (a : string * option string) :
  tasks.id (Db.assign_task t a) = tasks.id t
  /\ tasks.user_id (Db.assign_task t a) = tasks.user_id t
  /\ tasks.created_at (Db.assign_task t a) = tasks.created_at t.
Proof.
  destruct a as [column v]. unfold Db.assign_task.
  destruct (column =? "title")%string; [repeat split|].
  destruct (column =? "description")%string; [repeat split|].
  destruct (column =? "status")%string; [repeat split|].
  destruct (column =? "priority")%string; [repeat split|].
  destruct (column =? "due_date")%string; repeat split.
Qed.

Lemma fold_assign_task_keeps (set : list (string * option string)) (t : tasks.row) :
  tasks.id (fold_left Db.assign_task set t) = tasks.id t
  /\ tasks.user_id (fold_left Db.assign_task set t) = tasks.user_id t
  /\ tasks.created_at (fold_left Db.assign_task set t) = tasks.created_at t.
Proof.
  revert t. induction set as [|a set IH]; intros t; cbn [fold_left];
    [repeat split|].
  destruct (IH (Db.assign_task t a)) as (H1 & H2 & H3).
  destruct (assign_task_keeps t a) as (K1 & K2 & K3).
  repeat split; congruence.
Qed.

Lemma update_tasks_keeps (set : list (string * option string)) (id : Z) (s : Store) :
  let s' := snd (Db.update_tasks set id s) in
  users_table s' = users_table s
  /\ map tasks.id (tasks_table s') = map tasks.id (tasks_table s)
  /\ map tasks.user_id (tasks_table s') = map tasks.user_id (tasks_table s)
  /\ map tasks.created_at (tasks_table s') = map tasks.created_at (tasks_table s)
  /\ filter (fun t => negb (tasks.id t =? id)) (tasks_table s')
     = filter (fun t => negb (tasks.id t =? id)) (tasks_table s).
Proof.
  unfold Db.update_tasks.
  destruct (negb (Db.defined (map snd set))); [repeat split|].
  destruct (find _ set); cbn [snd users_table tasks_table]; [repeat split|].
  split; [reflexivity|].
  rewrite !map_map.
  refine (conj _ (conj _ (conj _ _)));
    try (apply map_ext; intros t; destruct (tasks.id t =? id); [|reflexivity];
         apply (fold_assign_task_keeps set t)).
  induction (tasks_table s) as [|t l IH]; [reflexivity|].
  cbn [map filter].
  destruct (tasks.id t =? id) eqn:Ht.
  - destruct (fold_assign_task_keeps set t) as (-> & _). rewrite Ht. exact IH.
  - rewrite Ht. cbn [negb]. now rewrite IH.
Qed.



(** The update endpoint hands the model the five fields of the body and
    nothing else, so what holds of [Task.update] holds of it: after any
    request, by anyone, every task has the owner it had. *)
Theorem updateTask_keeps_owners
    (user : req.user) (id : Z) (body : req.body) (s : Store) :
  let s' := snd (taskController.updateTask user id body s) in
  map (fun t => (tasks.id t, tasks.user_id t)) (tasks_table s')
  = map (fun t => (tasks.id t, tasks.user_id t)) (tasks_table s)
  /\ users_table s' = users_table s.
Proof.
  cbn zeta. rewrite updateTask_run.
  destruct (passes id (req.id user) (is_admin_role (req.role user)) s);
    cbn [snd]; [|split; reflexivity].
  destruct (complete body); cbn [snd]; [|split; reflexivity].
  destruct (update_tasks_keeps (Task.assignments (updates_of body)) id s)
    as (Hu & Hid & Hown & _).
  split; [|exact Hu].
  set (l' := tasks_table _) in *. set (l := tasks_table s) in *.
  clearbody l'. clear Hu. revert l' Hid Hown.
  induction l as [|t l IH]; intros [|t' l'] Hid Hown; try discriminate;
    [reflexivity|].
  cbn [map] in *. injection Hid as Hid1 Hid. injection Hown as Hown1 Hown.
  now rewrite Hid1, Hown1, (IH l' Hid Hown).
Qed.

(** X10. A delete answered 200 removes the tasks under the id and nothing
    else: afterwards a read of the id is answered 404 'Task not found'
    to every caller. A delete answered otherwise leaves the store as it
    was. *)
Theorem deleteTask_removes_that_task
    (user : req.user) (id : Z) (s : Store) :
  let s' := snd (taskController.deleteTask user id s) in
  (sent_status (fst (taskController.deleteTask user id s)) = Some 200%nat ->
   tasks_table s' = filter (fun t => negb (tasks.id t =? id)) (tasks_table s)
   /\ users_table s' = users_table s
   /\ forall anyone,
        taskController.getTask anyone id s'
        = (Sent (res.failure 404 "Task not found"), s'))
  /\ (sent_status (fst (taskController.deleteTask user id s)) <> Some 200%nat ->
      s' = s).
Proof.
  cbn zeta. rewrite deleteTask_run.
  destruct (passes id (req.id user) (is_admin_role (req.role user)) s).
  - destruct (stored_task id s) eqn:Ht; cbn [fst snd sent_status res.status].
    + split; [intros _ | intros H; now destruct H].
      refine (conj eq_refl (conj eq_refl _)).
      intros anyone. rewrite getTask_run.
      unfold stored_task, Db.delete_tasks. cbn [snd tasks_table].
      now rewrite find_filter_out.
    + split; [discriminate | intros _].
      now rewrite (delete_tasks_missing _ _ Ht).
  - cbn. split; [discriminate | reflexivity].
Qed.

Lemma deleteTask_witness :
  tasks_table (snd (taskController.deleteTask sample.as_alice 1 sample.store))
  = [sample.t2; sample.t3].
Proof.
  destruct (deleteTask_removes_that_task sample.as_alice 1 sample.store)
    as [Hok _].
  destruct Hok as (Htable & _); [reflexivity|].
  rewrite Htable. reflexivity.
Defined.


(** ** Pages *)

Lemma length_order_by_desc {R : Type} (key : R -> Z) (l : list R) :
  List.length (Db.order_by_desc key l) = List.length l.
Proof.
  unfold Db.order_by_desc.
  induction l as [|r l IH]; [reflexivity|]. cbn [fold_right List.length].
  rewrite <- IH. generalize (fold_right (Db.insert_desc key) [] l). intros sorted.
  induction sorted as [|x rest IHs]; [reflexivity|]. cbn [Db.insert_desc].
  destruct (key x <=? key r); cbn [List.length]; [reflexivity | now rewrite IHs].
Qed.

Lemma length_limit_offset {R : Type} (limit offset : nat) (l : list R) :
  List.length (Db.limit_offset limit offset l)
  = Nat.min limit (List.length l - offset).
Proof.
  unfold Db.limit_offset. now rewrite length_firstn, length_skipn.
Qed.

(** X11. For a caller who is no administrator (and whose id is not 0, as no
    AUTO_INCREMENT id is), [total] is the number of the caller's tasks
    that pass the filters, whatever the page; the page holds
    [min limit (total - offset)] of them; and [hasMore] says whether
    tasks remain beyond the page. *)
Theorem getTasks_page_and_total
    (P : req.user) (limit offset : option nat) (status priority : option string)
    (s : Store) :
  is_admin_role (req.role P) = false ->
  req.id P <> 0 ->
  let lim := default 10%nat limit in
  let off := default 0%nat offset in
  let total := List.length (owned_matching (req.id P) status priority s) in
  exists rows,
    taskController.getTasks P limit offset status priority s
    = (Sent (res.mk 200 true None
               (Some (listing.mk (listing.Plain rows) total lim off
                                 (off + lim <? total)%nat))), s)
    /\ List.length rows = Nat.min lim (total - off)
    /\ ((off + lim <? total)%nat = false ->
        List.length rows = (total - off)%nat).
Proof.
  intros Hrole Hid lim off total.
  assert (Hcount : List.length
                     (filter (Db.matches (Db.mkFilters status priority
                                                       (Some (req.id P))))
                             (tasks_table s)) = total).
  { subst total. unfold owned_matching. f_equal. apply filter_ext. intros t.
    unfold Db.matches. cbn [Db.by_user_id Db.by_status Db.by_priority].
    apply Z.eqb_neq in Hid. rewrite Hid.
    destruct (tasks.user_id t =? req.id P);
      rewrite ?andb_true_r, ?andb_false_r; reflexivity. }
  eexists. split.
  - unfold taskController.getTasks, handler, try_handler, bind.
    rewrite Hrole.
    unfold Task.findByUserId, Db.select_tasks_by_user, Task.count, Db.count_tasks, ret.
    cbn [Task.limit Task.offset Task.status Task.priority default].
    rewrite Hcount. reflexivity.
  - rewrite length_limit_offset, length_order_by_desc.
    fold (owned_matching (req.id P) status priority s). fold total.
    split; [reflexivity|].
    intros Hmore. apply Nat.ltb_ge in Hmore. subst lim off. lia.
Qed.

Lemma getTasks_page_witness :
  exists rows,
    fst (taskController.getTasks sample.as_alice (Some 1%nat) None None None
           sample.store)
    = Sent (res.mk 200 true None
              (Some (listing.mk (listing.Plain rows) 2 1 0 true)))
    /\ List.length rows = 1%nat.
Proof.
  destruct (getTasks_page_and_total sample.as_alice (Some 1%nat) None None None
              sample.store) as (rows & Hrun & Hlen & _).
  - reflexivity.
  - simpl. lia.
  - exists rows. rewrite Hrun. split; [reflexivity | exact Hlen].
Defined.

Lemma descending_insert {R : Type} (key : R -> Z) (r : R) (l : list R) :
  descending key l -> descending key (Db.insert_desc key r l).
Proof.
  induction l as [|x l IH]; intros Hl; cbn [Db.insert_desc].
  - cbn. split; [intros y []| exact I].
  - destruct Hl as [Hx Hrest].
    destruct (Z.leb_spec (key x) (key r)) as [Hle|Hgt].
    + cbn [descending]. split; [|split; assumption].
      intros y [<-|Hy]; [exact Hle|]. specialize (Hx y Hy). lia.
    + cbn [descending]. split; [|now apply IH].
      intros y Hy. apply In_insert_desc in Hy.
      destruct Hy as [->|Hy]; [lia | now apply Hx].
Qed.

Lemma descending_order_by {R : Type} (key : R -> Z) (l : list R) :
  descending key (Db.order_by_desc key l).
Proof.
  unfold Db.order_by_desc. induction l as [|r l IH]; [exact I|].
  cbn [fold_right]. now apply descending_insert.
Qed.

Lemma descending_skipn {R : Type} (key : R -> Z) (n : nat) (l : list R) :
  descending key l -> descending key (skipn n l).
Proof.
  revert l. induction n as [|n IH]; intros [|x l] H; cbn; auto.
  destruct H as [_ H]. now apply IH.
Qed.

Lemma descending_firstn {R : Type} (key : R -> Z) (n : nat) (l : list R) :
  descending key l -> descending key (firstn n l).
Proof.
  revert l. induction n as [|n IH]; intros [|x l] H; cbn; auto.
  destruct H as [Hx H]. split; [|now apply IH].
  intros y Hy. apply Hx.
  rewrite <- (firstn_skipn n l). apply in_or_app. now left.
Qed.

Lemma descending_map {A R : Type} (f : A -> R) (key : R -> Z) (l : list A) :
  descending (fun a => key (f a)) l -> descending key (map f l).
Proof.
  induction l as [|a l IH]; [auto|]. cbn. intros [Ha Hl]. split; [|now apply IH].
  intros y Hy. apply in_map_iff in Hy. destruct Hy as (x & <- & Hx). now apply Ha.
Qed.

(** X12. Every page of the listing endpoint, the administrator's and the
    user's alike, shows its tasks newest first. *)
Theorem getTasks_newest_first
    (P : req.user) (limit offset : option nat) (status priority : option string)
    (s : Store) :
  exists page,
    taskController.getTasks P limit offset status priority s
    = (Sent (res.mk 200 true None (Some page)), s)
    /\ descending tasks.created_at (listing.tasks_of (listing.tasks page)).
Proof.
  unfold taskController.getTasks, handler, try_handler, bind.
  destruct (is_admin_role (req.role P)).
  - eexists. split; [reflexivity|]. cbn [listing.tasks listing.tasks_of].
    apply descending_map. unfold Db.limit_offset.
    apply descending_firstn, descending_skipn, descending_order_by.
  - eexists. split; [reflexivity|]. cbn [listing.tasks listing.tasks_of].
    unfold Db.limit_offset.
    apply descending_firstn, descending_skipn, descending_order_by.
Qed.

(** ** Statistics *)

Lemma status_counts_bounded (rows : list tasks.row) :
  let count v :=
    List.length (filter (fun t => Db.sql_eq (tasks.status t) (Some v)) rows) in
  (count "completed" + count "in_progress" + count "pending" + count "cancelled"
   <= List.length rows)%nat
  /\ ((forall t, In t rows ->
         In (tasks.status t)
            [Some "completed"; Some "in_progress"; Some "pending"; Some "cancelled"]) ->
      (count "completed" + count "in_progress" + count "pending" + count "cancelled"
       = List.length rows)%nat).
Proof.
  cbn zeta. induction rows as [|t rows [IHle IHeq]]; [split; reflexivity|].
  cbn [filter List.length].
  assert (Hcase :
    forall st,
      (st = Some "completed" \/ st = Some "in_progress"
       \/ st = Some "pending" \/ st = Some "cancelled")
      \/ (Db.sql_eq st (Some "completed") = false
          /\ Db.sql_eq st (Some "in_progress") = false
          /\ Db.sql_eq st (Some "pending") = false
          /\ Db.sql_eq st (Some "cancelled") = false)).
  { intros [v|]; [|right; repeat split]. cbn [Db.sql_eq].
    destruct (String.eqb_spec v "completed"); [left; left; congruence|].
    destruct (String.eqb_spec v "in_progress"); [left; right; left; congruence|].
    destruct (String.eqb_spec v "pending");
      [left; right; right; left; congruence|].
    destruct (String.eqb_spec v "cancelled");
      [left; right; right; right; congruence|].
    right; repeat split. }
  split.
  - destruct (Hcase (tasks.status t)) as [Hst|Hst].
    + destruct Hst as [H|[H|[H|H]]]; rewrite H;
        cbn [Db.sql_eq String.eqb Ascii.eqb Bool.eqb List.length andb]; lia.
    + destruct Hst as (H1 & H2 & H3 & H4). rewrite H1, H2, H3, H4. lia.
  - intros Hall.
    assert (Hrows : forall x, In x rows ->
              In (tasks.status x)
                 [Some "completed"; Some "in_progress"; Some "pending";
                  Some "cancelled"]) by (intros x Hx; apply Hall; now right).
    specialize (IHeq Hrows).
    destruct (Hall t (or_introl eq_refl)) as [H|[H|[H|[H|[]]]]]; rewrite <- H;
      cbn [Db.sql_eq String.eqb Ascii.eqb Bool.eqb List.length andb]; lia.
Qed.

Lemma sum_status_counts (v : string) (t : tasks.row) (rows : list tasks.row) :
  Db.sum_status v (t :: rows) = Some (in_status v (t :: rows)).
Proof.
  unfold Db.sum_status, in_status.
  rewrite (filter_ext (fun r => Db.sql_eq (tasks.status r) (Some v))
             (fun r => match tasks.status r with
                       | Some x => (x =? v)%string
                       | None => false
                       end)); [reflexivity|].
  intros r. now destruct (tasks.status r).
Qed.

(** X13. The statistics are those of the caller's own tasks, whatever the
    caller's role: [total] is their number. For a caller without tasks
    the four sums are null. Otherwise each sum is the number of the
    caller's tasks in the status it is named after: [completed] counts
    the completed ones, [in_progress] those in progress, [pending] the
    pending ones and [cancelled] the cancelled ones; they add up to at
    most [total], and to [total] exactly when each of those tasks has
    one of the four statuses. *)
Theorem getTaskStats_counts_own_tasks (user : req.user) (s : Store) :
  let mine := owned (req.id user) s in
  exists st,
    taskController.getTaskStats user s
    = (Sent (res.mk 200 true None (Some (Some st))), s)
    /\ Db.total st = List.length mine
    /\ (mine = [] ->
        Db.completed st = None /\ Db.in_progress st = None
        /\ Db.pending st = None /\ Db.cancelled st = None)
    /\ (mine <> [] ->
        Db.completed st = Some (in_status "completed" mine)
        /\ Db.in_progress st = Some (in_status "in_progress" mine)
        /\ Db.pending st = Some (in_status "pending" mine)
        /\ Db.cancelled st = Some (in_status "cancelled" mine)
        /\ (in_status "completed" mine + in_status "in_progress" mine
            + in_status "pending" mine + in_status "cancelled" mine
            <= Db.total st)%nat
        /\ ((forall t, In t mine ->
                In (tasks.status t)
                   [Some "completed"; Some "in_progress"; Some "pending";
                    Some "cancelled"]) ->
            (in_status "completed" mine + in_status "in_progress" mine
             + in_status "pending" mine + in_status "cancelled" mine
             = Db.total st)%nat)).
Proof.
  cbn zeta. eexists. split; [reflexivity|].
  cbn [Db.total Db.completed Db.in_progress Db.pending Db.cancelled].
  fold (owned (req.id user) s).
  split; [reflexivity|]. split.
  - intros ->. repeat split.
  - intros Hne. destruct (owned (req.id user) s) as [|t rows] eqn:Hm;
      [now destruct Hne|].
    rewrite !sum_status_counts.
    refine (conj eq_refl (conj eq_refl (conj eq_refl (conj eq_refl _)))).
    pose proof (status_counts_bounded (t :: rows)) as Hb. cbn beta zeta in Hb.
    assert (Hc : forall v,
               List.length (filter (fun r => Db.sql_eq (tasks.status r) (Some v))
                                   (t :: rows))
               = in_status v (t :: rows)).
    { intros v. unfold in_status.
      f_equal; apply filter_ext; intros r; now destruct (tasks.status r). }
    rewrite !Hc in Hb. exact Hb.
Qed.

Lemma getTaskStats_witness :
  exists st,
    fst (taskController.getTaskStats sample.as_alice sample.store)
    = Sent (res.mk 200 true None (Some (Some st)))
    /\ Db.total st = 2%nat
    /\ Db.pending st = Some 2%nat /\ Db.completed st = Some 0%nat.
Proof.
  destruct (getTaskStats_counts_own_tasks sample.as_alice sample.store)
    as (st & Hrun & Htotal & _ & Hsome).
  exists st. rewrite Hrun. split; [reflexivity|]. split; [exact Htotal|].
  destruct Hsome as (Hc & _ & Hp & _); [discriminate|].
  rewrite Hp, Hc. split; reflexivity.
Defined.

(** ** Profiles *)

(** [User.update], run. *)
Lemma User_update_run (id : Z) (updates : object) (s : Store) :
  User.update id updates s
  = match filter (fun key => mem key User.allowedFields) (keys updates) with
    | [] => (Throw (JsError "No valid fields to update"), s)
    | _ =>
        match Db.update_users (User.assignments updates) id s with
        | (Ok _, s') => (Ok (option_map User.project (stored_user id s')), s')
        | (Throw e, s') => (Throw e, s')
        end
    end.
Proof.
  unfold User.update.
  destruct (filter _ (keys updates)) as [|k ks]; [reflexivity|].
  cbn [List.length Nat.eqb]. unfold bind.
  destruct (Db.update_users (User.assignments updates) id s) as [[ok|e] s'];
    [apply User_findById_run | reflexivity].
Qed.

Lemma update_users_throws (set : list (string * option string)) (id : Z)
    (s : Store) (e : Error) :
  fst (Db.update_users set id s) = Throw e -> snd (Db.update_users set id s) = s.
Proof.
  unfold Db.update_users.
  destruct (negb (Db.defined (map snd set))); [reflexivity|].
  destruct (find _ set); [reflexivity|].
  destruct (find _ (map _ (users_table s))) as [clash|]; [|discriminate].
  destruct (Db.username_clash _ clash); reflexivity.
Qed.

(** X14. [User.update] is all or nothing: when it throws, for want of a valid
    field or because the store refuses the statement, the store is as
    it was. The same holds of the two endpoints built on it when they
    hand an error to [next]. *)
Theorem User_update_all_or_nothing (id : Z) (updates : object) (s : Store) :
  (forall e, fst (User.update id updates s) = Throw e ->
             snd (User.update id updates s) = s)
  /\ (forall username email role e,
         fst (userController.updateUser id username email role s) = Next e ->
         snd (userController.updateUser id username email role s) = s)
  /\ (forall user username email e,
         fst (authController.updateProfile user username email s) = Next e ->
         snd (authController.updateProfile user username email s) = s).
Proof.
  assert (H : forall i o e, fst (User.update i o s) = Throw e ->
                            snd (User.update i o s) = s).
  { intros i o e. rewrite User_update_run.
    destruct (filter _ (keys o)); [reflexivity|].
    pose proof (update_users_throws (User.assignments o) i s) as Hthrow.
    destruct (Db.update_users (User.assignments o) i s) as [[ok|e'] s'];
      cbn [fst snd] in *; [discriminate|].
    intros _. now apply (Hthrow e'). }
  refine (conj (H id updates) (conj _ _)).
  - intros username email role e.
    unfold userController.updateUser, handler, try_handler, bind.
    specialize (H id [("username", username); ("email", email); ("role", role)]).
    destruct (User.update id _ s) as [[u|e'] s']; cbn [fst snd] in *;
      [discriminate|]. intros _. now apply (H e').
  - intros user username email e.
    unfold authController.updateProfile, handler, try_handler, bind.
    specialize (H (req.id user) [("username", username); ("email", email)]).
    destruct (User.update (req.id user) _ s) as [[u|e'] s']; cbn [fst snd] in *;
      [discriminate|]. intros _. now apply (H e').
Qed.

Lemma User_update_witness :
  userController.updateUser 2 (Some "alice") (Some "bob@x.com") (Some "user")
    sample.store
  = (Next (Db.dup_entry (Some "alice") "users.username"), sample.store).
Proof.
  destruct (User_update_all_or_nothing 2 [] sample.store) as (_ & Hnext & _).
  specialize (Hnext (Some "alice") (Some "bob@x.com") (Some "user")
                (Db.dup_entry (Some "alice") "users.username") eq_refl).
  rewrite (surjective_pairing (userController.updateUser _ _ _ _ _)), Hnext.
  reflexivity.
Defined.

Lemma profile_assignments (username email : option string) :
  User.assignments [("username", username); ("email", email)]
  = [("username", username); ("email", email)].
Proof. reflexivity. Qed.

(** X15. The profile endpoint changes the caller's row and no other, and of
    that row the name and the address only: after any request every
    user has the role, the password and the id held before, so no one
    gains a role through it; and [tasks] is untouched. *)
Theorem updateProfile_keeps_roles
    (user : req.user) (username email : option string) (s : Store) :
  let s' := snd (authController.updateProfile user username email s) in
  map users.role (users_table s') = map users.role (users_table s)
  /\ map users.password (users_table s') = map users.password (users_table s)
  /\ map users.id (users_table s') = map users.id (users_table s)
  /\ filter (fun u => negb (users.id u =? req.id user)) (users_table s')
     = filter (fun u => negb (users.id u =? req.id user)) (users_table s)
  /\ tasks_table s' = tasks_table s.
Proof.
  cbn zeta.
  unfold authController.updateProfile, handler, try_handler, bind.
  rewrite User_update_run. rewrite profile_assignments.
  replace (filter (fun key => mem key User.allowedFields)
                  (keys [("username", username); ("email", email)]))
    with ["username"; "email"] by reflexivity.
  unfold Db.update_users.
  destruct (negb (Db.defined (map snd [("username", username); ("email", email)])));
    [cbn [snd]; repeat split|].
  replace (find (fun a => negb (mem (fst a) Db.users_text_columns))
                [("username", username); ("email", email)])
    with (@None (string * option string)) by reflexivity.
  destruct (find _ (map _ (users_table s))) as [clash|].
  - destruct (Db.username_clash _ clash); cbn [snd]; repeat split.
  - unfold ret. cbn [snd users_table tasks_table]. rewrite !map_map.
    refine (conj _ (conj _ (conj _ (conj _ eq_refl))));
      try (apply map_ext; intros u; destruct (users.id u =? req.id user);
           reflexivity).
    induction (users_table s) as [|u l IH]; [reflexivity|].
    cbn [map filter].
    destruct (users.id u =? req.id user) eqn:Hu.
    + replace (users.id (fold_left Db.assign_user
                           [("username", username); ("email", email)] u))
        with (users.id u) by reflexivity.
      rewrite Hu. exact IH.
    + rewrite Hu. cbn [negb]. now rewrite IH.
Qed.

(** ** Uniqueness of names and addresses *)

Lemma sql_eq_Some (c : option string) (x : string) :
  Db.sql_eq c (Some x) = true -> c = Some x.
Proof.
  destruct c as [v|]; cbn; [|discriminate].
  intros H. apply String.eqb_eq in H. now subst.
Qed.

Lemma existsb_false_filter {A : Type} (p : A -> bool) (l : list A) :
  existsb p l = false -> filter p l = [].
Proof.
  intros H. apply filter_none_iff. rewrite existsb_find in H.
  now destruct (find p l).
Qed.

Lemma length_filter_filter {A : Type} (p q : A -> bool) (l : list A) :
  (List.length (filter p (filter q l)) <= List.length (filter p l))%nat.
Proof.
  induction l as [|a l IH]; [apply Nat.le_refl|]. cbn [filter].
  destruct (q a), (p a) eqn:Hp; cbn [filter List.length]; rewrite ?Hp;
    cbn [List.length]; lia.
Qed.

(** A key stays unique under an UPDATE by id that the store accepts. *)
Lemma unique_after_update
    (col : users.row -> option string) (f : users.row -> users.row)
    (target : Z) (rows : list users.row) :
  let rows' := map (fun u => if users.id u =? target then f u else u) rows in
  (forall u, users.id (f u) = users.id u) ->
  (forall x, (List.length (filter (fun u => Db.sql_eq (col u) (Some x)) rows) <= 1)%nat) ->
  (forall r, In r rows' -> (users.id r =? target) = true ->
             (1 <? List.length (filter (fun y => Db.sql_eq (col y) (col r)) rows'))%nat
             = false) ->
  forall x, (List.length (filter (fun u => Db.sql_eq (col u) (Some x)) rows') <= 1)%nat.
Proof.
  intros rows' Hid Huniq Hcheck x.
  destruct (existsb (fun r => (users.id r =? target) && Db.sql_eq (col r) (Some x))
                    rows') eqn:Hex.
  - apply existsb_exists in Hex. destruct Hex as (r & Hin & Hr).
    apply andb_prop in Hr. destruct Hr as [Ht Hx].
    specialize (Hcheck r Hin Ht). apply Nat.ltb_ge in Hcheck.
    now rewrite (sql_eq_Some _ _ Hx) in Hcheck.
  - apply Nat.le_trans
      with (List.length (filter (fun u => Db.sql_eq (col u) (Some x)) rows));
      [|apply Huniq].
    assert (Hnone : forall r, In r rows' -> (users.id r =? target) = true ->
                              Db.sql_eq (col r) (Some x) = false).
    { intros r Hin Ht.
      destruct (Db.sql_eq (col r) (Some x)) eqn:Hx; [|reflexivity].
      assert (existsb (fun r => (users.id r =? target)
                                && Db.sql_eq (col r) (Some x)) rows' = true).
      { apply existsb_exists. exists r. now rewrite Ht, Hx. }
      congruence. }
    clear Hex Hcheck Huniq. subst rows'.
    induction rows as [|u l IH]; [apply Nat.le_refl|].
    cbn [map filter].
    specialize (IH (fun r Hin => Hnone r (or_intror Hin))).
    destruct (users.id u =? target) eqn:Hu.
    + rewrite (Hnone (f u)); [ | left; cbn; now rewrite Hu | now rewrite Hid ].
      destruct (Db.sql_eq (col u) (Some x)); cbn [List.length]; lia.
    + destruct (Db.sql_eq (col u) (Some x)); cbn [List.length]; lia.
Qed.

Lemma fold_assign_user_keeps_id (set : list (string * option string)) (u : users.row) :
  users.id (fold_left Db.assign_user set u) = users.id u.
Proof.
  revert u. induction set as [|[column v] set IH]; intros u; [reflexivity|].
  cbn [fold_left]. rewrite IH. unfold Db.assign_user.
  destruct (column =? "username")%string; [reflexivity|].
  destruct (column =? "email")%string; [reflexivity|].
  destruct (column =? "password")%string; [reflexivity|].
  destruct (column =? "role")%string; reflexivity.
Qed.

Lemma update_users_unique (set : list (string * option string)) (id : Z) (s : Store) :
  users_unique (users_table s) ->
  users_unique (users_table (snd (Db.update_users set id s))).
Proof.
  intros Huniq. unfold Db.update_users.
  destruct (negb (Db.defined (map snd set))); [exact Huniq|].
  destruct (find _ set); [exact Huniq|].
  destruct (find _ (map _ (users_table s))) as [clash|] eqn:Hfind.
  - destruct (Db.username_clash _ clash); exact Huniq.
  - cbn [snd users_table].
    pose proof (find_none _ _ Hfind) as Hcheck. cbn beta in Hcheck.
    intros x. split.
    + apply (unique_after_update users.username (fold_left Db.assign_user set) id).
      * apply fold_assign_user_keeps_id.
      * intros y. apply Huniq.
      * intros r Hin Ht. specialize (Hcheck r Hin). rewrite Ht in Hcheck.
        cbn [andb] in Hcheck. apply orb_false_elim in Hcheck. apply Hcheck.
    + apply (unique_after_update users.email (fold_left Db.assign_user set) id).
      * apply fold_assign_user_keeps_id.
      * intros y. apply Huniq.
      * intros r Hin Ht. specialize (Hcheck r Hin). rewrite Ht in Hcheck.
        cbn [andb] in Hcheck. apply orb_false_elim in Hcheck. apply Hcheck.
Qed.

Lemma User_update_unique (id : Z) (updates : object) (s : Store) :
  users_unique (users_table s) ->
  users_unique (users_table (snd (User.update id updates s))).
Proof.
  intros Huniq. rewrite User_update_run.
  destruct (filter _ (keys updates)); [exact Huniq|].
  pose proof (update_users_unique (User.assignments updates) id s Huniq) as H.
  destruct (Db.update_users (User.assignments updates) id s) as [[ok|e] s'];
    exact H.
Qed.

(** X16. The endpoints that write to [users] keep its names and addresses
    unique: if no name and no address is held by two rows before a
    registration, a profile update, an administrator's update or a
    deletion, none is afterwards, whatever the request. *)
Theorem users_stay_unique (bcrypt : Bcrypt) (env : Env) (now : Z) (s : Store) :
  users_unique (users_table s) ->
  (forall username email password role,
      users_unique
        (users_table
           (snd (authController.register bcrypt env now username email password
                                         role s))))
  /\ (forall user username email,
         users_unique
           (users_table (snd (authController.updateProfile user username email s))))
  /\ (forall id username email role,
         users_unique
           (users_table (snd (userController.updateUser id username email role s))))
  /\ (forall user id,
         users_unique (users_table (snd (userController.deleteUser user id s)))).
Proof.
  intros Huniq. refine (conj _ (conj _ (conj _ _))).
  - intros username email password role. rewrite register_run.
    destruct (Db.email_taken (Some email) s) eqn:He; [exact Huniq|].
    destruct (Db.username_taken (Some username) s) eqn:Hu; [exact Huniq|].
    cbn [snd after_register users_table]. intros x.
    rewrite !filter_app, !length_app. cbn [filter registered users.username users.email].
    destruct (Huniq x) as [Hn Ha]. split.
    + destruct (Db.sql_eq (Some username) (Some x)) eqn:Hx; cbn [List.length]; [|lia].
      apply sql_eq_Some in Hx. injection Hx as <-.
      unfold Db.username_taken in Hu. rewrite (existsb_false_filter _ _ Hu).
      cbn. lia.
    + destruct (Db.sql_eq (Some email) (Some x)) eqn:Hx; cbn [List.length]; [|lia].
      apply sql_eq_Some in Hx. injection Hx as <-.
      unfold Db.email_taken in He. rewrite (existsb_false_filter _ _ He).
      cbn. lia.
  - intros user username email.
    unfold authController.updateProfile, handler, try_handler, bind.
    pose proof (User_update_unique (req.id user)
                  [("username", username); ("email", email)] s Huniq) as H.
    destruct (User.update (req.id user) _ s) as [[u|e] s']; exact H.
  - intros id username email role.
    unfold userController.updateUser, handler, try_handler, bind.
    pose proof (User_update_unique id
                  [("username", username); ("email", email); ("role", role)]
                  s Huniq) as H.
    destruct (User.update id _ s) as [[u|e] s']; exact H.
  - intros user id. rewrite deleteUser_run.
    destruct (id =? req.id user); [exact Huniq|].
    destruct (stored_user id s); [|exact Huniq].
    cbn [snd Db.delete_users users_table]. intros x.
    destruct (Huniq x) as [Hn Ha]. split.
    + eapply Nat.le_trans; [apply length_filter_filter | exact Hn].
    + eapply Nat.le_trans; [apply length_filter_filter | exact Ha].
Qed.

Lemma sample_users_unique : users_unique (users_table sample.store).
Proof.
  intros x. cbn [sample.store users_table filter sample.alice sample.bob sample.root
                 users.username users.email Db.sql_eq].
  split.
  - destruct (String.eqb_spec "alice" x), (String.eqb_spec "bob" x),
             (String.eqb_spec "root" x); cbn [List.length]; try lia; congruence.
  - destruct (String.eqb_spec "alice@x.com" x), (String.eqb_spec "bob@x.com" x),
             (String.eqb_spec "root@x.com" x); cbn [List.length]; try lia; congruence.
Qed.

Lemma users_stay_unique_witness :
  users_unique
    (users_table
       (snd (userController.updateUser 2 (Some "robert") (Some "bob@x.com")
               (Some "admin") sample.store))).
Proof.
  apply (users_stay_unique sample.bcrypt sample.env 1000 sample.store
           sample_users_unique).
Defined.

(** ** Registration and the lookups *)

(** X17. A user just registered is found by each lookup of the model, by the
    id the registration returned, by the address and by the name, and
    the profile endpoint shows the new user that user's own record. *)
Theorem register_then_lookup
    (bcrypt : Bcrypt) (env : Env) (now : Z)
    (username email password : string) (role : option string) (s : Store) :
  Db.email_taken (Some email) s = false ->
  Db.username_taken (Some username) s = false ->
  let s' := snd (authController.register bcrypt env now username email password role s) in
  let u := registered bcrypt env username email password role s in
  User.findById (users.id u) s' = (Ok (Some (User.project u)), s')
  /\ User.findByEmail email s' = (Ok (Some u), s')
  /\ User.findByUsername username s' = (Ok (Some (User.project u)), s')
  /\ authController.getMe (req.mkUser (users.id u) (users.role u)) s'
     = (Sent (res.mk 200 true None (Some (Some (User.project u)))), s').
Proof.
  intros Hemail Hname s' u. subst s'.
  rewrite register_run, Hemail, Hname. cbn [snd].
  assert (Hid : stored_user (users.id u)
                  (after_register bcrypt env username email password role s)
                = Some u).
  { unfold stored_user, after_register. cbn [users_table]. fold u.
    apply find_app_new; [apply fresh_id_unused | apply Z.eqb_refl]. }
  refine (conj _ (conj _ (conj _ _))).
  - now rewrite User_findById_run, Hid.
  - rewrite User_findByEmail_run. unfold after_register. cbn [users_table]. fold u.
    rewrite (find_app_new _ _ u); [reflexivity | exact Hemail |].
    cbn. apply String.eqb_refl.
  - unfold User.findByUsername, bind, ret, Db.select_users_by_username.
    rewrite hd_error_filter. unfold after_register. cbn [users_table]. fold u.
    rewrite (find_app_new _ _ u); [reflexivity | exact Hname |].
    cbn. apply String.eqb_refl.
  - unfold authController.getMe, handler, try_handler, bind. cbn [req.id].
    now rewrite User_findById_run, Hid.
Qed.

Lemma register_then_lookup_witness :
  fst (authController.getMe (req.mkUser 1 (Some "user")) sample.alice_registered)
  = Sent (res.mk 200 true None
            (Some (Some (User.mkProfile 1 (Some "alice") (Some "alice@x.com")
                                        (Some "user"))))).
Proof.
  destruct (register_then_lookup sample.bcrypt sample.env 1000
              "alice" "alice@x.com" "Passw0rd1" None sample.empty eq_refl eq_refl)
    as (_ & _ & _ & Hme).
  unfold sample.alice_registered.
  change (req.mkUser 1 (Some "user"))
    with (req.mkUser
            (users.id (registered sample.bcrypt sample.env "alice" "alice@x.com"
                                  "Passw0rd1" None sample.empty))
            (users.role (registered sample.bcrypt sample.env "alice" "alice@x.com"
                                    "Passw0rd1" None sample.empty))).
  rewrite Hme. reflexivity.
Defined.

(** ** Updates that go through *)

Lemma find_map_by_id {R : Type} (id : R -> Z) (f : R -> R) (target : Z) (l : list R) :
  (forall r, id (f r) = id r) ->
  find (fun r => id r =? target) (map (fun r => if id r =? target then f r else r) l)
  = option_map f (find (fun r => id r =? target) l).
Proof.
  intros Hid. induction l as [|r l IH]; [reflexivity|]. cbn [map find].
  destruct (id r =? target) eqn:Hr.
  - now rewrite Hid, Hr.
  - now rewrite Hr.
Qed.

(** X9. An update by the owner or an administrator that carries all five
    fields replaces them in the stored task and keeps its id, owner and
    creation time; the response shows the task as stored, and so does a
    read that follows. *)
Theorem updateTask_then_getTask
    (user : req.user) (id : Z) (t : tasks.row)
    (title description status priority due_date : string) (s : Store) :
  stored_task id s = Some t ->
  spec_canAccessTask user t Update = true ->
  let body := req.mkBody (Some title) (Some description) (Some status)
                         (Some priority) (Some due_date) in
  let t' := tasks.mk (tasks.id t) (Some title) (Some description) (Some status)
                     (Some priority) (Some due_date)
                     (tasks.user_id t) (tasks.created_at t) in
  let s' := snd (taskController.updateTask user id body s) in
  fst (taskController.updateTask user id body s)
  = Sent (res.mk 200 true (Some "Task updated successfully")
            (Some (Some (first_join (users_table s) t'))))
  /\ stored_task id s' = Some t'
  /\ fst (taskController.getTask user id s')
     = Sent (res.mk 200 true None (Some (first_join (users_table s) t'))).
Proof.
  intros Ht Hcan body t' s'. subst s'.
  unfold spec_canAccessTask in Hcan.
  assert (Hp : passes id (req.id user) (is_admin_role (req.role user)) s = true)
    by now rewrite (passes_stored _ _ _ _ _ Ht).
  rewrite updateTask_run, Hp.
  change (complete body) with true. cbn zeta. cbn [fst snd].
  assert (Hs : stored_task id
                 (snd (Db.update_tasks (Task.assignments (updates_of body)) id s))
               = Some t').
  { unfold stored_task, Db.update_tasks.
    rewrite body_values_defined. change (complete body) with true. cbn [negb].
    rewrite task_assignments_accepted. cbn [snd tasks_table].
    rewrite (find_map_by_id tasks.id); [|intros r; apply fold_assign_task_keeps].
    unfold stored_task in Ht. rewrite Ht. reflexivity. }
  assert (Hu : users_table
                 (snd (Db.update_tasks (Task.assignments (updates_of body)) id s))
               = users_table s) by apply update_tasks_keeps.
  rewrite Hs, Hu. refine (conj eq_refl (conj eq_refl _)).
  rewrite getTask_run, Hs, Hu. cbn [fst].
  subst t'. cbn [tasks.user_id].
  destruct (is_admin_role (req.role user)), (tasks.user_id t =? req.id user);
    try discriminate; reflexivity.
Qed.

Lemma updateTask_then_getTask_witness :
  stored_task 1
    (snd (taskController.updateTask sample.as_alice 1
            (req.mkBody (Some "T1b") (Some "d") (Some "completed") (Some "high")
                        (Some "2026-01-01"))
            sample.store))
  = Some (tasks.mk 1 (Some "T1b") (Some "d") (Some "completed") (Some "high")
                   (Some "2026-01-01") 1 100).
Proof.
  apply (updateTask_then_getTask sample.as_alice 1 sample.t1
           "T1b" "d" "completed" "high" "2026-01-01" sample.store);
    reflexivity.
Defined.

(** X18. A change of role by an administrator takes effect at the next
    refresh: once an update carrying a name, an address and a role has
    been answered 200 for a stored user, the store holds the new role
    for that user, the password is the one held before, and a refresh
    with any refresh token of that user that verifies yields an access token with the
    new role. *)
Theorem role_change_reaches_next_refresh
    (env : Env) (now : Z) (id : Z) (u : users.row)
    (username email role : string) (s : Store) :
  stored_user id s = Some u ->
  sent_status (fst (userController.updateUser id (Some username) (Some email)
                      (Some role) s)) = Some 200%nat ->
  let s' := snd (userController.updateUser id (Some username) (Some email)
                   (Some role) s) in
  let u' := users.mk (users.id u) (Some username) (Some email) (users.password u)
                     (Some role) in
  stored_user id s' = Some u'
  /\ forall token c,
       jwt.verifyRefreshToken env now token = Ok c ->
       jwt.id (jwt.body c) = id ->
       authController.refreshToken env now (Some token) s'
       = (Sent (res.mk 200 true (Some "Token refreshed successfully")
                  (Some (jwt.generateAccessToken env now
                           (jwt.mkPayload (users.id u) (Some (Some role)))))), s').
Proof.
  intros Hu Hok s' u'.
  assert (Hs : stored_user id s' = Some u').
  { subst s'. revert Hok.
    unfold userController.updateUser, handler, try_handler, bind.
    rewrite User_update_run.
    replace (filter (fun key => mem key User.allowedFields)
               (keys [("username", Some username); ("email", Some email);
                      ("role", Some role)]))
      with ["username"; "email"; "role"] by reflexivity.
    replace (User.assignments [("username", Some username); ("email", Some email);
                               ("role", Some role)])
      with [("username", Some username); ("email", Some email); ("role", Some role)]
      by reflexivity.
    unfold Db.update_users.
    change (negb (Db.defined
                    (map snd [("username", Some username); ("email", Some email);
                              ("role", Some role)])))
      with false. cbv iota.
    replace (find (fun a => negb (mem (fst a) Db.users_text_columns))
               [("username", Some username); ("email", Some email);
                ("role", Some role)])
      with (@None (string * option string)) by reflexivity.
    destruct (find _ (map _ (users_table s))) as [clash|].
    - destruct (Db.username_clash _ clash); discriminate.
    - intros _. unfold ret. cbn [snd]. unfold stored_user. cbn [users_table].
      rewrite (find_map_by_id users.id); [|intros r; reflexivity].
      unfold stored_user in Hu. rewrite Hu. reflexivity. }
  split; [exact Hs|].
  intros token c Hv Hid.
  rewrite (refreshToken_run _ _ _ _ _ Hv), Hid, Hs. reflexivity.
Qed.

Lemma role_change_witness :
  let s' := snd (userController.updateUser 2 (Some "bob") (Some "bob@x.com")
                   (Some "admin") sample.store) in
  authController.refreshToken sample.env 2000
    (Some (jwt.generateRefreshToken sample.env 1000 (jwt.mkPayload 2 None))) s'
  = (Sent (res.mk 200 true (Some "Token refreshed successfully")
             (Some (jwt.generateAccessToken sample.env 2000
                      (jwt.mkPayload 2 (Some (Some "admin")))))), s').
Proof.
  intros s'.
  destruct (role_change_reaches_next_refresh sample.env 2000 2 sample.bob
              "bob" "bob@x.com" "admin" sample.store eq_refl eq_refl)
    as [_ Hrefresh].
  apply (Hrefresh _ (jwt.mkClaims (jwt.mkPayload 2 None) 1000 (1000 + days 30)));
    reflexivity.
Defined.

(** ** The seeding script *)

Lemma existsb_app_one {A : Type} (p : A -> bool) (l : list A) (a : A) :
  existsb p (l ++ [a]) = existsb p l || p a.
Proof. rewrite existsb_app. cbn. now rewrite orb_false_r. Qed.

(** What an INSERT IGNORE into [users] does: it never fails, appends at
    most the row it was given, leaves [tasks] alone, and afterwards the
    name or the address it was given is in use. *)
Lemma insert_ignore_user_facts (username email password role : string) (s : Store) :
  let run := Db.insert_ignore_user (Some username) (Some email) (Some password)
                                   (Some role) s in
  (exists ok, fst run = Ok ok)
  /\ tasks_table (snd run) = tasks_table s
  /\ (exists us, users_table (snd run) = (users_table s ++ us)%list
                 /\ (Db.username_taken (Some username) s
                     || Db.email_taken (Some email) s = true -> snd run = s))
  /\ Db.username_taken (Some username) (snd run)
     || Db.email_taken (Some email) (snd run) = true
  /\ (forall x, Db.email_taken (Some x) (snd run)
                = Db.email_taken (Some x) s
                  || (negb (Db.username_taken (Some username) s
                            || Db.email_taken (Some email) s)
                      && (email =? x)%string))
  /\ (forall x, Db.username_taken (Some x) (snd run)
                = Db.username_taken (Some x) s
                  || (negb (Db.username_taken (Some username) s
                            || Db.email_taken (Some email) s)
                      && (username =? x)%string)).
Proof.
  cbn zeta. unfold Db.insert_ignore_user, Db.insert_user.
  destruct (Db.username_taken (Some username) s) eqn:Hu; cbn [orb].
  - cbn [fst snd negb andb]. rewrite Hu.
    refine (conj (ex_intro _ _ eq_refl) (conj eq_refl (conj _ (conj eq_refl _)))).
    + exists []. now rewrite app_nil_r.
    + split; intros x; now rewrite orb_false_r.
  - destruct (Db.email_taken (Some email) s) eqn:He; cbn [fst snd negb andb].
    + rewrite Hu, He.
      refine (conj (ex_intro _ _ eq_refl) (conj eq_refl (conj _ (conj eq_refl _)))).
      * exists []. now rewrite app_nil_r.
      * split; intros x; now rewrite orb_false_r.
    + refine (conj (ex_intro _ _ eq_refl) (conj eq_refl (conj _ (conj _ _)))).
      * eexists [_]. split; [reflexivity | discriminate].
      * unfold Db.username_taken. cbn [users_table].
        rewrite existsb_app_one. cbn [users.username Db.sql_eq].
        now rewrite String.eqb_refl, orb_true_r.
      * unfold Db.email_taken, Db.username_taken. cbn [users_table].
        split; intros x; rewrite existsb_app_one; reflexivity.
Qed.

Lemma seed_tasks_step (now : Z) (render : Z -> string) (userId : Z)
    (task : seed.sample_task) (l : list seed.sample_task) (s : Store) :
  seed_tasks now render userId (task :: l) s
  = match Db.insert_task now (Some (seed.title task)) (Some (seed.description task))
                         (Some (seed.status task)) (Some (seed.priority task))
                         (Some (render (now + seed.due_in task))) userId s with
    | (Ok _, s') => seed_tasks now render userId l s'
    | (Throw e, s') => (Throw e, s')
    end.
Proof.
  unfold seed_tasks. cbn [seed.for_each]. unfold bind, ret.
  destruct (Db.insert_task _ _ _ _ _ _ _ s) as [[ok|e] s']; reflexivity.
Qed.

Lemma seed_tasks_run (now : Z) (render : Z -> string) (userId : Z)
    (l : list seed.sample_task) (s : Store) :
  existsb (fun u => users.id u =? userId) (users_table s) = true ->
  exists ts s',
    seed_tasks now render userId l s = (Ok tt, s')
    /\ users_table s' = users_table s
    /\ tasks_table s' = (tasks_table s ++ ts)%list
    /\ List.length ts = List.length l
    /\ forall t, In t ts -> tasks.user_id t = userId.
Proof.
  revert s. induction l as [|task l IH]; intros s Hfk.
  - exists [], s. cbn. rewrite app_nil_r. repeat split. intros t [].
  - rewrite seed_tasks_step. unfold Db.insert_task.
    cbn [Db.defined forallb andb negb]. rewrite Hfk.
    match goal with
    | |- context [seed_tasks now render userId l ?st] =>
        destruct (IH st) as (ts & s' & Hrun & Hu & Ht & Hlen & Hown);
          [exact Hfk|]
    end.
    rewrite Hrun. cbn [users_table tasks_table] in Hu, Ht.
    eexists (_ :: ts), s'. split; [reflexivity|]. split; [exact Hu|].
    split; [rewrite Ht, <- app_assoc; reflexivity|].
    split; [cbn; now rewrite Hlen|].
    intros t [<-|Hin]; [reflexivity | now apply Hown].
Qed.

(** The seeding script, run. *)
Lemma seedDatabase_run (bcrypt : Bcrypt) (now : Z) (render : Z -> string) (s : Store) :
  seed.seedDatabase bcrypt now render s
  = match find (fun u => Db.sql_eq (users.email u) (Some "john@example.com"))
               (users_table (seeded_users bcrypt s)) with
    | None => (1%nat, seeded_users bcrypt s)
    | Some user =>
        match seed_tasks now render (users.id user) seed.sample_tasks
                         (seeded_users bcrypt s) with
        | (Ok _, s') => (0%nat, s')
        | (Throw _, s') => (1%nat, s')
        end
    end.
Proof.
  unfold seed.seedDatabase, seeded_users. cbn zeta. unfold bind at 1.
  destruct (insert_ignore_user_facts "admin" "admin@example.com"
              (bcrypt_hash bcrypt "admin123" 10) "admin" s) as ((ok & Hok) & _).
  destruct (Db.insert_ignore_user (Some "admin") _ _ _ s) as [r1 s1].
  cbn [fst snd] in *. subst r1. unfold bind at 1.
  destruct (insert_ignore_user_facts "john_doe" "john@example.com"
              (bcrypt_hash bcrypt "user123" 10) "user" s1) as ((ok' & Hok') & _).
  destruct (Db.insert_ignore_user (Some "john_doe") _ _ _ s1) as [r2 s2].
  cbn [fst snd] in *. subst r2.
  unfold bind at 1, Db.select_users_by_email. rewrite hd_error_filter.
  destruct (find _ (users_table s2)); reflexivity.
Qed.

Lemma taken_by_table (a b : Store) :
  users_table a = users_table b ->
  forall x, Db.username_taken x a = Db.username_taken x b
            /\ Db.email_taken x a = Db.email_taken x b.
Proof.
  intros H x. unfold Db.username_taken, Db.email_taken. now rewrite H.
Qed.

(** X19. The seeding script only adds rows. It ends with code 1, having
    added no task, exactly when the name john_doe is in use while the
    address john@example.com is not. When it ends with code 0 it has
    added its four sample tasks; and it is not idempotent: a second run
    ends with code 0 again, adds no user, and adds the four tasks once
    more. *)
Theorem seed_adds_its_tasks_at_each_run
    (bcrypt : Bcrypt) (now later : Z) (render : Z -> string) (s : Store) :
  let first := seed.seedDatabase bcrypt now render s in
  let second := seed.seedDatabase bcrypt later render (snd first) in
  (exists us ts,
      users_table (snd first) = (users_table s ++ us)%list
      /\ tasks_table (snd first) = (tasks_table s ++ ts)%list)
  /\ (fst first = 1%nat
      <-> Db.email_taken (Some "john@example.com") s = false
          /\ Db.username_taken (Some "john_doe") s = true)
  /\ (fst first = 1%nat -> tasks_table (snd first) = tasks_table s)
  /\ (fst first = 0%nat ->
      List.length (tasks_table (snd first)) = (List.length (tasks_table s) + 4)%nat
      /\ fst second = 0%nat
      /\ users_table (snd second) = users_table (snd first)
      /\ List.length (tasks_table (snd second))
         = (List.length (tasks_table (snd first)) + 4)%nat).
Proof.
  cbn zeta.
  pose proof (insert_ignore_user_facts "admin" "admin@example.com"
                (bcrypt_hash bcrypt "admin123" 10) "admin" s)
    as (_ & Ha_tasks & (usa & Ha_users & _) & Ha_taken & Ha_email & Ha_name).
  pose proof (insert_ignore_user_facts "john_doe" "john@example.com"
                (bcrypt_hash bcrypt "user123" 10) "user"
                (snd (Db.insert_ignore_user (Some "admin") (Some "admin@example.com")
                        (Some (bcrypt_hash bcrypt "admin123" 10)) (Some "admin") s)))
    as (_ & Hj_tasks & (usj & Hj_users & _) & Hj_taken & Hj_email & Hj_name).
  cbn zeta in *.
  change (snd (Db.insert_ignore_user (Some "john_doe") (Some "john@example.com")
                 (Some (bcrypt_hash bcrypt "user123" 10)) (Some "user")
                 (snd (Db.insert_ignore_user (Some "admin") (Some "admin@example.com")
                         (Some (bcrypt_hash bcrypt "admin123" 10)) (Some "admin") s))))
    with (seeded_users bcrypt s) in *.
  set (sa := snd (Db.insert_ignore_user (Some "admin") (Some "admin@example.com")
                    (Some (bcrypt_hash bcrypt "admin123" 10)) (Some "admin") s)) in *.
  set (s2 := seeded_users bcrypt s) in *.
  (* the address of john after the two insertions *)
  assert (Hjohn : Db.email_taken (Some "john@example.com") s2
                  = negb (negb (Db.email_taken (Some "john@example.com") s)
                          && Db.username_taken (Some "john_doe") s)).
  { rewrite Hj_email, (Ha_email "john@example.com"), (Ha_name "john_doe").
    cbn [String.eqb Ascii.eqb Bool.eqb andb]. rewrite !andb_false_r, !orb_false_r.
    destruct (Db.email_taken (Some "john@example.com") s),
             (Db.username_taken (Some "john_doe") s); reflexivity. }
  rewrite seedDatabase_run. fold s2.
  unfold Db.email_taken in Hjohn at 1. rewrite existsb_find in Hjohn.
  destruct (find _ (users_table s2)) as [user|] eqn:Hfind.
  - (* john is there: the four tasks go in *)
    assert (Hfk : existsb (fun u => users.id u =? users.id user) (users_table s2)
                  = true).
    { apply existsb_exists. exists user. split; [|apply Z.eqb_refl].
      now apply find_some in Hfind. }
    destruct (seed_tasks_run now render (users.id user) seed.sample_tasks s2 Hfk)
      as (ts & s3 & Hrun & Hu3 & Ht3 & Hlen & _).
    rewrite Hrun. cbn [fst snd].
    refine (conj _ (conj _ (conj _ _))).
    + exists (usa ++ usj)%list, ts. rewrite Hu3, Ht3, Hj_users, Hj_tasks, Ha_users,
        Ha_tasks, app_assoc. split; reflexivity.
    + split; [discriminate|]. intros [He Hn]. rewrite He, Hn in Hjohn. discriminate.
    + discriminate.
    + intros _.
      split; [rewrite Ht3, Hj_tasks, Ha_tasks, length_app, Hlen; reflexivity|].
      (* the second run *)
      assert (Hsame : seeded_users bcrypt s3 = s3).
      { unfold seeded_users.
        destruct (taken_by_table s3 s2 Hu3 (Some "admin")) as [Hn1 He1].
        destruct (taken_by_table s3 s2 Hu3 (Some "admin@example.com")) as [_ He2].
        destruct (taken_by_table s3 s2 Hu3 (Some "john_doe")) as [Hn3 _].
        destruct (taken_by_table s3 s2 Hu3 (Some "john@example.com")) as [_ He4].
        assert (Hadmin : Db.username_taken (Some "admin") s3
                         || Db.email_taken (Some "admin@example.com") s3 = true).
        { rewrite Hn1, He2, (Hj_name "admin"), (Hj_email "admin@example.com").
          apply orb_true_iff in Ha_taken.
          destruct Ha_taken as [->| ->]; cbn; now rewrite ?orb_true_r. }
        assert (Hjd : Db.username_taken (Some "john_doe") s3
                      || Db.email_taken (Some "john@example.com") s3 = true).
        { now rewrite Hn3, He4. }
        unfold Db.insert_ignore_user at 2. rewrite Hadmin. cbn [snd].
        unfold Db.insert_ignore_user. now rewrite Hjd. }
      assert (Hfind3 : find (fun u => Db.sql_eq (users.email u)
                                                (Some "john@example.com"))
                            (users_table s3) = Some user)
        by (rewrite Hu3; exact Hfind).
      rewrite seedDatabase_run, Hsame, Hfind3.
      assert (Hfk3 : existsb (fun u => users.id u =? users.id user) (users_table s3)
                     = true) by now rewrite Hu3.
      destruct (seed_tasks_run later render (users.id user) seed.sample_tasks s3 Hfk3)
        as (ts' & s4 & Hrun' & Hu4 & Ht4 & Hlen' & _).
      rewrite Hrun'. cbn [fst snd].
      refine (conj eq_refl (conj Hu4 _)).
      rewrite Ht4, length_app, Hlen'. reflexivity.
  - (* john is missing: the script stops *)
    cbn [fst snd].
    refine (conj _ (conj _ (conj _ _))).
    + exists (usa ++ usj)%list, []. rewrite Hj_users, Hj_tasks, Ha_users, Ha_tasks,
        app_assoc, app_nil_r. split; reflexivity.
    + split; [intros _ | reflexivity].
      destruct (Db.email_taken (Some "john@example.com") s),
               (Db.username_taken (Some "john_doe") s); try discriminate.
      split; reflexivity.
    + intros _. now rewrite Hj_tasks, Ha_tasks.
    + discriminate.
Qed.

Lemma seed_witness :
  List.length
    (tasks_table
       (snd (seed.seedDatabase sample.bcrypt 2000 (fun _ => "due")
               (snd (seed.seedDatabase sample.bcrypt 1000 (fun _ => "due")
                       sample.empty)))))
  = 8%nat.
Proof.
  destruct (seed_adds_its_tasks_at_each_run sample.bcrypt 1000 2000
              (fun _ => "due") sample.empty) as (_ & _ & _ & Hok).
  destruct (Hok eq_refl) as (Hfirst & _ & _ & Hsecond).
  rewrite Hsecond, Hfirst. reflexivity.
Defined.
